(** * TOIL: the time-entry store and the report aggregation

    A shallow embedding of
      - [src/types.ts]                (the data model),
      - [src/store/useTimeStore.ts]   (the zustand store and its actions),
      - [src/pages/Reports.tsx]       (range filter, daily bars, project pie),
      - [src/pages/Dashboard.tsx]     (today's live totals),
    followed by the properties the specification states about them.

    Modelling conventions.
      - Instants are JavaScript timestamps: integer milliseconds, [Z].
      - [Date.now()] and [crypto.randomUUID()] are the two effects of the
        store actions; both are passed in as arguments ([now], [uuid]).
      - An optional field or parameter ([x?: T]) is an [option]; [null] in
        [endTime: number | null] is [None].
      - Durations computed with [/] are JavaScript numbers; they are modelled
        as exact rationals [Q] (no binary rounding), compared with [==],
        in [Reports], for the statements about single contributions and sum
        identities; the project chart is also given in binary64
        ([PieChart]), for what depends on rounding.
      - [end] is reserved in Rocq: the source's [end] is written [end_]. *)

From Stdlib Require Import ZArith QArith Qround Qminmax Qabs Lia Lqa Floats.
From stdpp Require Import base option list strings pretty.

Local Open Scope Z_scope.

(** ** Data model ([src/types.ts]) *)

Inductive EntryType := work | break.

Global Instance EntryType_eq_dec : EqDecision EntryType.
Proof. solve_decision. Defined.

Module Project.
Record t := mk {
  id : string;
  name : string;
  color : string;
  isArchived : option bool
}.
End Project.

Module Tag.
Record t := mk {
  id : string;
  name : string;
  color : string
}.
End Tag.

Module TimeEntry.
Record t := mk {
  id : string;
  startTime : Z;
  endTime : option Z;          (* null means currently running *)
  type : EntryType;
  projectId : option string;
  tagIds : list string;
  notes : option string;
  targetDuration : option Z;   (* in seconds *)
  isWorkingBreak : option bool
}.

(** [{ ...e, endTime: v }] *)
Definition with_endTime (e : t) (v : option Z) : t :=
  mk (id e) (startTime e) v (type e) (projectId e) (tagIds e) (notes e)
     (targetDuration e) (isWorkingBreak e).

(** [e.endTime === null] *)
Definition isOpen (e : t) : Prop := endTime e = None.

Global Instance isOpen_dec e : Decision (isOpen e).
Proof. unfold isOpen. apply _. Defined.
End TimeEntry.

(** ** JavaScript truthiness of the optional fields the code tests *)

(** [x || d] and [!x] for [x : number | null]: [null] and [0] are falsy. *)
Definition truthyNum (x : option Z) : bool :=
  match x with
  | Some v => negb (v =? 0)
  | None => false
  end.

Definition orNum (x : option Z) (d : Z) : Z :=
  match x with
  | Some v => if v =? 0 then d else v
  | None => d
  end.

(** [x || false], [!x] for [x?: boolean]: [undefined] and [false] are falsy. *)
Definition truthyBool (x : option bool) : bool :=
  match x with
  | Some b => b
  | None => false
  end.

(** [if (x)] for [x?: string]: [undefined] and the empty string are falsy. *)
Definition truthyStr (x : option string) : option string :=
  match x with
  | Some s => if decide (s = "") then None else Some s
  | None => None
  end.

(** ** The store ([src/store/useTimeStore.ts]) *)

Module Store.

Record TimeStore := mkStore {
  entries : list TimeEntry.t;
  projects : list Project.t;
  tags : list Tag.t
}.

(** The initial state: [entries: [], projects: [], tags: []]. *)
Definition initial : TimeStore := mkStore [] [] [].

(** zustand's [set({ entries: v })]: a shallow merge into the state. *)
Definition set_entries (v : list TimeEntry.t) (s : TimeStore) : TimeStore :=
  mkStore v (projects s) (tags s).

Definition set_projects (v : list Project.t) (s : TimeStore) : TimeStore :=
  mkStore (entries s) v (tags s).

(** The arguments of one [startEntry] call, with the two effects it reads. *)
Record StartArgs := mkStart {
  a_now : Z;                           (* Date.now() *)
  a_uuid : string;                     (* crypto.randomUUID() *)
  a_type : EntryType;
  a_projectId : option string;
  a_tagIds : option (list string);     (* tagIds = [] when undefined *)
  a_targetDuration : option Z;
  a_isWorkingBreak : option bool
}.

(** The [newEntry] object literal of [startEntry]. *)
Definition newEntry (a : StartArgs) : TimeEntry.t :=
  let target :=
    match a_targetDuration a with
    | None => match a_type a with work => 25 * 60 | break => 5 * 60 end
    | Some t => t
    end in
  TimeEntry.mk (a_uuid a) (a_now a) None (a_type a) (a_projectId a)
    (default [] (a_tagIds a)) None (Some target)
    (Some (truthyBool (a_isWorkingBreak a))).

(** [entries.findIndex(e => e.endTime === null)] followed by the indexed
    update [newEntries[i] = { ...newEntries[i], endTime: now }].
    [list_find] returns the index together with the element stored there,
    which is the [activeEntry] the source reads back at that index;
    [None] is the source's [-1]. *)
Definition closeActive (now : Z) (entries : list TimeEntry.t) : list TimeEntry.t :=
  match list_find TimeEntry.isOpen entries with
  | Some (activeEntryIndex, activeEntry) =>
      <[activeEntryIndex := TimeEntry.with_endTime activeEntry (Some now)]> entries
  | None => entries
  end.

Definition startEntry (a : StartArgs) (s : TimeStore) : TimeStore :=
  let newEntries := closeActive (a_now a) (entries s) in
  set_entries (newEntries ++ [newEntry a]) s.

(** [set] is only called when an open entry was found. *)
Definition stopEntry (now : Z) (s : TimeStore) : TimeStore :=
  match list_find TimeEntry.isOpen (entries s) with
  | Some (activeEntryIndex, activeEntry) =>
      set_entries
        (<[activeEntryIndex := TimeEntry.with_endTime activeEntry (Some now)]> (entries s)) s
  | None => s
  end.

Definition deleteProject (id : string) (s : TimeStore) : TimeStore :=
  set_projects (filter (λ p, Project.id p ≠ id) (projects s)) s.

(** The argument of [importData]; a field may be missing at run time,
    which is what [data.entries || []] caters for (an array, even an
    empty one, is truthy). *)
Record ImportData := mkImport {
  d_entries : option (list TimeEntry.t);
  d_projects : option (list Project.t);
  d_tags : option (list Tag.t)
}.

Definition importData (data : ImportData) (s : TimeStore) : TimeStore :=
  mkStore (default [] (d_entries data))
          (default [] (d_projects data))
          (default [] (d_tags data)).

(** [e.endTime !== null] *)
Abbreviation closed := (λ e : TimeEntry.t, ¬ TimeEntry.isOpen e).

(** A run of [startEntry] calls, oldest first. *)
Definition startEntries (calls : list StartArgs) (s : TimeStore) : TimeStore :=
  foldl (λ st a, startEntry a st) s calls.

(** The entries with [endTime === null]. *)
Definition openEntries (l : list TimeEntry.t) : list TimeEntry.t :=
  filter TimeEntry.isOpen l.

(** *** The other actions of the store *)

(** [addManualEntry]: [{ ...entry, id: crypto.randomUUID() }] is appended;
    whatever [id] the argument carries is overwritten. *)
Definition with_id (e : TimeEntry.t) (id : string) : TimeEntry.t :=
  TimeEntry.mk id (TimeEntry.startTime e) (TimeEntry.endTime e) (TimeEntry.type e)
    (TimeEntry.projectId e) (TimeEntry.tagIds e) (TimeEntry.notes e)
    (TimeEntry.targetDuration e) (TimeEntry.isWorkingBreak e).

Definition addManualEntry (entry : TimeEntry.t) (uuid : string) (s : TimeStore) : TimeStore :=
  set_entries (entries s ++ [with_id entry uuid]) s.

(** [Partial<TimeEntry>]: for each key, [None] when the key is absent and
    [Some v] when it is present with value [v]. A present key of an optional
    field may hold [undefined] ([Some None]); a present key of a required
    field holds a value of the field's type. *)
Record PartialEntry := mkPartial {
  u_id : option string;
  u_startTime : option Z;
  u_endTime : option (option Z);
  u_type : option EntryType;
  u_projectId : option (option string);
  u_tagIds : option (list string);
  u_notes : option (option string);
  u_targetDuration : option (option Z);
  u_isWorkingBreak : option (option bool)
}.

(** [{ ...e, ...updates }] *)
Definition mergeEntry (e : TimeEntry.t) (updates : PartialEntry) : TimeEntry.t :=
  TimeEntry.mk
    (default (TimeEntry.id e) (u_id updates))
    (default (TimeEntry.startTime e) (u_startTime updates))
    (default (TimeEntry.endTime e) (u_endTime updates))
    (default (TimeEntry.type e) (u_type updates))
    (default (TimeEntry.projectId e) (u_projectId updates))
    (default (TimeEntry.tagIds e) (u_tagIds updates))
    (default (TimeEntry.notes e) (u_notes updates))
    (default (TimeEntry.targetDuration e) (u_targetDuration updates))
    (default (TimeEntry.isWorkingBreak e) (u_isWorkingBreak updates)).

Definition updateEntry (id : string) (updates : PartialEntry) (s : TimeStore) : TimeStore :=
  set_entries
    ((λ e, if decide (TimeEntry.id e = id) then mergeEntry e updates else e) <$> entries s) s.

Definition deleteEntry (id : string) (s : TimeStore) : TimeStore :=
  set_entries (filter (λ e, TimeEntry.id e ≠ id) (entries s)) s.

(** [addProject]: [{ ...project, id: crypto.randomUUID() }] is appended. *)
Definition addProject (project : Project.t) (uuid : string) (s : TimeStore) : TimeStore :=
  set_projects
    (projects s ++ [Project.mk uuid (Project.name project) (Project.color project)
                      (Project.isArchived project)]) s.

(** [Partial<Project>], read as [PartialEntry]. *)
Record PartialProject := mkPartialProject {
  up_id : option string;
  up_name : option string;
  up_color : option string;
  up_isArchived : option (option bool)
}.

Definition mergeProject (p : Project.t) (updates : PartialProject) : Project.t :=
  Project.mk
    (default (Project.id p) (up_id updates))
    (default (Project.name p) (up_name updates))
    (default (Project.color p) (up_color updates))
    (default (Project.isArchived p) (up_isArchived updates)).

Definition updateProject (id : string) (updates : PartialProject) (s : TimeStore) : TimeStore :=
  set_projects
    ((λ p, if decide (Project.id p = id) then mergeProject p updates else p) <$> projects s) s.

Definition set_tags (v : list Tag.t) (s : TimeStore) : TimeStore :=
  mkStore (entries s) (projects s) v.

Definition addTag (tag : Tag.t) (uuid : string) (s : TimeStore) : TimeStore :=
  set_tags (tags s ++ [Tag.mk uuid (Tag.name tag) (Tag.color tag)]) s.

Record PartialTag := mkPartialTag {
  ut_id : option string;
  ut_name : option string;
  ut_color : option string
}.

Definition mergeTag (t : Tag.t) (updates : PartialTag) : Tag.t :=
  Tag.mk (default (Tag.id t) (ut_id updates))
         (default (Tag.name t) (ut_name updates))
         (default (Tag.color t) (ut_color updates)).

Definition updateTag (id : string) (updates : PartialTag) (s : TimeStore) : TimeStore :=
  set_tags ((λ t, if decide (Tag.id t = id) then mergeTag t updates else t) <$> tags s) s.

Definition deleteTag (id : string) (s : TimeStore) : TimeStore :=
  set_tags (filter (λ t, Tag.id t ≠ id) (tags s)) s.

(** One call of an action of the store, with the effects it reads. *)
Inductive Action :=
| StartEntry (a : StartArgs)
| StopEntry (now : Z)
| AddManualEntry (entry : TimeEntry.t) (uuid : string)
| UpdateEntry (id : string) (updates : PartialEntry)
| DeleteEntry (id : string)
| AddProject (project : Project.t) (uuid : string)
| UpdateProject (id : string) (updates : PartialProject)
| DeleteProject (id : string)
| AddTag (tag : Tag.t) (uuid : string)
| UpdateTag (id : string) (updates : PartialTag)
| DeleteTag (id : string).

Definition perform (act : Action) (s : TimeStore) : TimeStore :=
  match act with
  | StartEntry a => startEntry a s
  | StopEntry now => stopEntry now s
  | AddManualEntry entry uuid => addManualEntry entry uuid s
  | UpdateEntry id updates => updateEntry id updates s
  | DeleteEntry id => deleteEntry id s
  | AddProject project uuid => addProject project uuid s
  | UpdateProject id updates => updateProject id updates s
  | DeleteProject id => deleteProject id s
  | AddTag tag uuid => addTag tag uuid s
  | UpdateTag id updates => updateTag id updates s
  | DeleteTag id => deleteTag id s
  end.

Definition performAll (acts : list Action) (s : TimeStore) : TimeStore :=
  foldl (λ st act, perform act st) s acts.

(** An action that cannot leave a further entry open: a manual entry that
    comes with its end, an update that does not write [endTime: null]. *)
Definition opensNothing (act : Action) : Prop :=
  match act with
  | AddManualEntry entry _ => TimeEntry.endTime entry ≠ None
  | UpdateEntry _ updates => u_endTime updates ≠ Some None
  | _ => True
  end.

(** The update that has no key. *)
Definition noUpdates : PartialEntry :=
  mkPartial None None None None None None None None None.

(** [{ ...u1, ...u2 }] *)
Definition mergeUpdates (u1 u2 : PartialEntry) : PartialEntry :=
  mkPartial
    (match u_id u2 with Some v => Some v | None => u_id u1 end)
    (match u_startTime u2 with Some v => Some v | None => u_startTime u1 end)
    (match u_endTime u2 with Some v => Some v | None => u_endTime u1 end)
    (match u_type u2 with Some v => Some v | None => u_type u1 end)
    (match u_projectId u2 with Some v => Some v | None => u_projectId u1 end)
    (match u_tagIds u2 with Some v => Some v | None => u_tagIds u1 end)
    (match u_notes u2 with Some v => Some v | None => u_notes u1 end)
    (match u_targetDuration u2 with Some v => Some v | None => u_targetDuration u1 end)
    (match u_isWorkingBreak u2 with Some v => Some v | None => u_isWorkingBreak u1 end).

End Store.

(** ** The date-fns functions the pages call

    date-fns is an external package. Its functions are modelled from their
    documented behaviour, in a zone whose local days are the 86 400 000 ms
    blocks of the timestamp line (UTC, no daylight-saving shifts). *)

Module DateFns.

Definition msPerDay : Z := 86400000.

(** Local midnight of the day of [t]. *)
Definition startOfDay (t : Z) : Z := t - t `mod` msPerDay.

(** 23:59:59.999 of the day of [t]. *)
Definition endOfDay (t : Z) : Z := startOfDay t + (msPerDay - 1).

Record Interval := mkInterval { start : Z; end_ : Z }.

(** [time >= start && time <= end] *)
Definition isWithinInterval (t : Z) (r : Interval) : bool :=
  (start r <=? t) && (t <=? end_ r).

(** The midnights from the day of [start] on, while they are [<= end]. *)
Definition eachDayOfInterval (r : Interval) : list Z :=
  let first := startOfDay (start r) in
  (λ k : nat, first + Z.of_nat k * msPerDay) <$>
    seq 0 (Z.to_nat ((end_ r - first) `div` msPerDay + 1)).

(** [isToday(t)] is [isSameDay(t, Date.now())]; [clock] is that reading. *)
Definition isToday (clock t : Z) : bool :=
  startOfDay t =? startOfDay clock.

(** Milliseconds over 1000, rounded toward zero. *)
Definition differenceInSeconds (later earlier : Z) : Z :=
  (later - earlier) `quot` 1000.

(** [getDay]: 0 is Sunday; day 0 of the timestamp line was a Thursday. *)
Definition getDay (t : Z) : Z := (t `div` msPerDay + 4) `mod` 7.

(** [startOfWeek(t, { weekStartsOn })]: back to the week's first day, at
    midnight. *)
Definition startOfWeek (t weekStartsOn : Z) : Z :=
  let day := getDay t in
  let diff := (if day <? weekStartsOn then 7 else 0) + day - weekStartsOn in
  startOfDay (t - diff * msPerDay).

(** [endOfWeek(t, { weekStartsOn })]: on to the week's last day, at
    23:59:59.999. *)
Definition endOfWeek (t weekStartsOn : Z) : Z :=
  let day := getDay t in
  let diff := (if day <? weekStartsOn then -7 else 0) + 6 - (day - weekStartsOn) in
  endOfDay (t + diff * msPerDay).

Definition subDays (t amount : Z) : Z := t - amount * msPerDay.

(** Milliseconds over 60000, rounded toward zero. *)
Definition differenceInMinutes (later earlier : Z) : Z :=
  (later - earlier) `quot` 60000.

Definition getHours (t : Z) : Z := (t `mod` msPerDay) `div` 3600000.

Definition getMinutes (t : Z) : Z := ((t `mod` msPerDay) `mod` 3600000) `div` 60000.

End DateFns.

(** [Number(x.toFixed(2))]: the nearest multiple of 1/100, ties to the
    larger magnitude; a negative [x] is rounded on its absolute value. *)
Definition toFixed2 (x : Q) : Q :=
  if Qle_bool 0 x
  then Qfloor (x * 100 + (1 # 2))%Q # 100
  else (- (Qfloor (- x * 100 + (1 # 2))%Q # 100))%Q.

(** The sum of a list of numbers. *)
Definition sumZ (l : list Z) : Z := foldr Z.add 0 l.

Definition sumQ (l : list Q) : Q := foldr Qplus 0%Q l.

(** ** The report page ([src/pages/Reports.tsx])

    One render reads the clock several times ([new Date()], [Date.now()]);
    the model uses one reading [now] for all of them. *)

Module Reports.
Import DateFns.

(** The predicate of [filteredEntries]. *)
Definition inRange (range : Interval) (now : Z) (e : TimeEntry.t) : bool :=
  if negb (truthyNum (TimeEntry.endTime e)) && negb (isWithinInterval now range)
  then false
  else
    let start := TimeEntry.startTime e in
    let end' := orNum (TimeEntry.endTime e) now in
    (start <=? DateFns.end_ range) && (DateFns.start range <=? end').

Definition filteredEntries (entries : list TimeEntry.t) (range : Interval) (now : Z)
  : list TimeEntry.t :=
  filter (λ e, inRange range now e) entries.

(** The three lines shared by the reduce callback of [barData] and the
    forEach callback of [pieData]:
      [s = Math.max(e.startTime, lo)],
      [end = Math.min(e.endTime || Date.now(), hi)],
      [Math.max(0, (end - s) / 1000)]. *)
Definition overlapSeconds (now lo hi : Z) (e : TimeEntry.t) : Q :=
  let s := Z.max (TimeEntry.startTime e) lo in
  let end' := Z.min (orNum (TimeEntry.endTime e) now) hi in
  Qmax 0 (inject_Z (end' - s) / 1000).

Definition isWork (e : TimeEntry.t) : bool :=
  bool_decide (TimeEntry.type e = work).

(** [dayEntries] and [workSeconds] of one day of [barData]. *)
Definition dayEntries (filtered : list TimeEntry.t) (now day : Z) : list TimeEntry.t :=
  let dayStart := startOfDay day in
  let dayEnd := endOfDay day in
  filter (λ e, (TimeEntry.startTime e <? dayEnd)
               && (dayStart <? orNum (TimeEntry.endTime e) now)) filtered.

Definition workSeconds (filtered : list TimeEntry.t) (now day : Z) : Q :=
  let dayStart := startOfDay day in
  let dayEnd := endOfDay day in
  foldl (λ acc e, acc + overlapSeconds now dayStart dayEnd e)%Q 0%Q
        (filter (λ e, isWork e) (dayEntries filtered now day)).

(** One bar; the [name] label (a formatted date) is left out. *)
Record BarDatum := mkBar { workHours : Q; fullDate : Z }.

Definition barData (filtered : list TimeEntry.t) (range : Interval) (now : Z)
  : list BarDatum :=
  (λ day, mkBar (toFixed2 (workSeconds filtered now day / 3600)) day)
    <$> eachDayOfInterval range.

Definition totalWorkHours (bars : list BarDatum) : Q :=
  foldl (λ acc d, acc + workHours d)%Q 0%Q bars.

(** [Map<string, number>]: keys in order of first insertion. *)
Definition NumMap := list (string * Q).

Fixpoint mapGet (k : string) (m : NumMap) : option Q :=
  match m with
  | [] => None
  | (k', v) :: m' => if decide (k = k') then Some v else mapGet k m'
  end.

Fixpoint mapSet (k : string) (v : Q) (m : NumMap) : NumMap :=
  match m with
  | [] => [(k, v)]
  | (k', v') :: m' =>
      if decide (k = k') then (k, v) :: m' else (k', v') :: mapSet k v m'
  end.

(** The forEach of [pieData]: the state is [(projectMap, noProjectSeconds)]. *)
Definition pieStep (range : Interval) (now : Z)
    (acc : NumMap * Q) (e : TimeEntry.t) : NumMap * Q :=
  let seconds := overlapSeconds now (DateFns.start range) (DateFns.end_ range) e in
  match truthyStr (TimeEntry.projectId e) with
  | Some pid => (mapSet pid (default 0 (mapGet pid (fst acc)) + seconds)%Q (fst acc), snd acc)
  | None => (fst acc, (snd acc + seconds)%Q)
  end.

Definition pieAccumulate (filtered : list TimeEntry.t) (range : Interval) (now : Z)
  : NumMap * Q :=
  foldl (pieStep range now) ([], 0%Q) (filter (λ e, isWork e) filtered).

(** The accumulated total of the bucket an entry is keyed to:
    [projectMap.get(e.projectId) || 0], or [noProjectSeconds]. *)
Definition bucketOf (e : TimeEntry.t) (acc : NumMap * Q) : Q :=
  match truthyStr (TimeEntry.projectId e) with
  | Some pid => default 0%Q (mapGet pid (fst acc))
  | None => snd acc
  end.

Record PieDatum := mkPie { name : string; value : Q; color : string }.

(** [s || d] for strings. *)
Definition orStr (s : option string) (d : string) : string :=
  default d (truthyStr s).

(** [projects.find(p => p.id === pid)] *)
Definition findProject (projects : list Project.t) (pid : string) : option Project.t :=
  snd <$> list_find (λ p, Project.id p = pid) projects.

Definition projectRow (projects : list Project.t) (kv : string * Q) : PieDatum :=
  let project := findProject projects (fst kv) in
  mkPie (orStr (Project.name <$> project) "Unknown")
        (toFixed2 (snd kv / 3600))
        (orStr (Project.color <$> project) "#999").

(** The row of a key whose project cannot be found:
    [project?.name || 'Unknown'], [project?.color || '#999']. *)
Definition unknownRow (seconds : Q) : PieDatum :=
  mkPie "Unknown" (toFixed2 (seconds / 3600)) "#999".

Definition noProjectRow (noProjectSeconds : Q) : PieDatum :=
  mkPie "No Project" (toFixed2 (noProjectSeconds / 3600)) "#ccc".

Definition pieData (filtered : list TimeEntry.t) (range : Interval)
    (projects : list Project.t) (now : Z) : list PieDatum :=
  let '(projectMap, noProjectSeconds) := pieAccumulate filtered range now in
  let data := projectRow projects <$> projectMap in
  if Qlt_le_dec 60 noProjectSeconds
  then data ++ [noProjectRow noProjectSeconds]
  else data.

(** The entries keyed to project [pid], and those keyed to none. *)
Abbreviation keyedTo pid := (λ e : TimeEntry.t, truthyStr (TimeEntry.projectId e) = Some pid).
Abbreviation unkeyed := (λ e : TimeEntry.t, truthyStr (TimeEntry.projectId e) = None).

(** A closed work entry of [dur] milliseconds for project [pid] that lies
    inside the report range (timestamps after the epoch). *)
Definition workInside (range : Interval) (pid : string) (dur : Z) (e : TimeEntry.t) : Prop :=
  TimeEntry.type e = work ∧
  TimeEntry.projectId e = Some pid ∧
  0 < TimeEntry.startTime e ∧
  DateFns.start range ≤ TimeEntry.startTime e ∧
  TimeEntry.endTime e = Some (TimeEntry.startTime e + dur) ∧
  TimeEntry.startTime e + dur ≤ DateFns.end_ range.

(** The report query of a store state: both charts. *)
Definition report (s : Store.TimeStore) (range : Interval) (now : Z)
  : list BarDatum * list PieDatum :=
  let filtered := filteredEntries (Store.entries s) range now in
  (barData filtered range now, pieData filtered range (Store.projects s) now).

(** An entry with an end the code reads as one: [e.endTime] is truthy. *)
Abbreviation ended := (λ e : TimeEntry.t, truthyNum (TimeEntry.endTime e) = true).


(** The period selector and the [range] memo. [startOfMonth] and
    [endOfMonth] depend on the calendar and are left as parameters. *)
Inductive Period := Day | Week | Fortnight | Month.

Section Range.
Variables startOfMonth endOfMonth : Z → Z.

Definition range (period : Period) (now : Z) : Interval :=
  match period with
  | Day => mkInterval (startOfDay now) (endOfDay now)
  | Week => mkInterval (startOfWeek now 1) (endOfWeek now 1)
  | Fortnight => mkInterval (subDays now 14) (endOfDay now)
  | Month => mkInterval (startOfMonth now) (endOfMonth now)
  end.

End Range.

End Reports.

(** ** JavaScript numbers in binary64

    Where a statement depends on how the sums round (a threshold, a value
    shown with two decimals) the numbers are the primitive binary64 floats,
    whose operations round as JavaScript's do. *)

Module Binary64.

(** The double of an integer. *)
Definition ofZ (x : Z) : float := SF2Prim (binary_normalize prec emax x 0 false).

(** [v || 0] where [v] is a number or [undefined]: [undefined], [0], [-0]
    and [NaN] give [0]. *)
Definition or0 (v : option float) : float :=
  match v with
  | Some x => if is_zero x || is_nan x then 0%float else x
  | None => 0%float
  end.

(** [Math.max(0, x)] *)
Definition max0 (x : float) : float :=
  if is_nan x then x else if (0 <? x)%float then x else 0%float.

(** The exact value of a finite double. *)
Definition toQ (x : float) : option Q :=
  match Prim2SF x with
  | S754_zero _ => Some 0%Q
  | S754_finite s m e =>
      Some ((if s then - (1) else 1) * inject_Z (Z.pos m) * Qpower 2 e)%Q
  | _ => None
  end.

(** [Number(text)] for the decimal text of [n / d]: the double nearest to the quotient. *)
Definition nearest (n : Z) (d : positive) : float :=
  SF2Prim (SFdiv prec emax
             (match n with
              | Z0 => S754_zero false
              | Z.pos p => S754_finite false p 0
              | Z.neg p => S754_finite true p 0
              end)
             (S754_finite false d 0)).

(** [Number(x.toFixed(2))]. [toFixed] takes the integer [n] with [n / 100]
    nearest to the exact value of [x] (the larger one on a tie), after
    putting a negative sign aside; [NaN], the infinities and values from
    [1e21] on are printed as they are and read back unchanged. *)
Definition toFixed2 (x : float) : float :=
  match toQ x with
  | None => x
  | Some q =>
      if Qle_bool (inject_Z (10 ^ 21)) (Qabs q) then x
      else
        let n := Qfloor (Qabs q * 100 + (1 # 2))%Q in
        if Qle_bool 0 q then nearest n 100 else (- nearest n 100)%float
  end.

End Binary64.

(** ** The project chart in binary64 ([pieData], [src/pages/Reports.tsx])

    The same code as [Reports.pieData], with the seconds as doubles. The
    instants stay integers: the code only subtracts and compares them, which
    is exact on doubles. *)

Module PieChart.
Import DateFns Binary64.

(** [s = Math.max(e.startTime, lo)], [end = Math.min(e.endTime || Date.now(), hi)],
    [Math.max(0, (end - s) / 1000)]. *)
Definition overlapSeconds (now lo hi : Z) (e : TimeEntry.t) : float :=
  let s := Z.max (TimeEntry.startTime e) lo in
  let end' := Z.min (orNum (TimeEntry.endTime e) now) hi in
  max0 (ofZ (end' - s) / 1000)%float.

(** [Map<string, number>]: keys in order of first insertion. *)
Definition NumMap := list (string * float).

Fixpoint mapGet (k : string) (m : NumMap) : option float :=
  match m with
  | [] => None
  | (k', v) :: m' => if decide (k = k') then Some v else mapGet k m'
  end.

Fixpoint mapSet (k : string) (v : float) (m : NumMap) : NumMap :=
  match m with
  | [] => [(k, v)]
  | (k', v') :: m' =>
      if decide (k = k') then (k, v) :: m' else (k', v') :: mapSet k v m'
  end.

(** The forEach of [pieData]: the state is [(projectMap, noProjectSeconds)]. *)
Definition pieStep (range : Interval) (now : Z)
    (acc : NumMap * float) (e : TimeEntry.t) : NumMap * float :=
  let seconds := overlapSeconds now (DateFns.start range) (DateFns.end_ range) e in
  match truthyStr (TimeEntry.projectId e) with
  | Some pid => (mapSet pid (or0 (mapGet pid (fst acc)) + seconds)%float (fst acc), snd acc)
  | None => (fst acc, (snd acc + seconds)%float)
  end.

Definition pieAccumulate (filtered : list TimeEntry.t) (range : Interval) (now : Z)
  : NumMap * float :=
  foldl (pieStep range now) ([], 0%float) (filter (λ e, Reports.isWork e) filtered).

Record PieDatum := mkPie { name : string; value : float; color : string }.

Definition projectRow (projects : list Project.t) (kv : string * float) : PieDatum :=
  let project := Reports.findProject projects (fst kv) in
  mkPie (Reports.orStr (Project.name <$> project) "Unknown")
        (toFixed2 (snd kv / 3600)%float)
        (Reports.orStr (Project.color <$> project) "#999").

Definition noProjectRow (noProjectSeconds : float) : PieDatum :=
  mkPie "No Project" (toFixed2 (noProjectSeconds / 3600)%float) "#ccc".

Definition pieData (filtered : list TimeEntry.t) (range : Interval)
    (projects : list Project.t) (now : Z) : list PieDatum :=
  let '(projectMap, noProjectSeconds) := pieAccumulate filtered range now in
  let data := projectRow projects <$> projectMap in
  if (60 <? noProjectSeconds)%float
  then data ++ [noProjectRow noProjectSeconds]
  else data.

(** A key's total as the loop builds it: [(total || 0) + seconds] for each
    of its entries in turn, from [undefined]. *)
Definition runningTotal (start : option float) (seconds : list float) : option float :=
  foldl (λ total s, Some (or0 total + s)%float) start seconds.

(** [noProjectSeconds += seconds] for each entry in turn. *)
Definition runningSum (start : float) (seconds : list float) : float :=
  foldl (λ total s, (total + s)%float) start seconds.

End PieChart.

(** ** Today's totals ([src/pages/Dashboard.tsx])

    [clock] is the [Date.now()] read by [isToday]; [now] is the component's
    [now] state, refreshed once a second. *)

Module Dashboard.
Import DateFns.

Inductive Category := active | rest.

(** The callback of the category filter. *)
Definition inCategory (category : Category) (e : TimeEntry.t) : bool :=
  match category with
  | active =>
      bool_decide (TimeEntry.type e = work)
      || (bool_decide (TimeEntry.type e = break) && truthyBool (TimeEntry.isWorkingBreak e))
  | rest =>
      bool_decide (TimeEntry.type e = break) && negb (truthyBool (TimeEntry.isWorkingBreak e))
  end.

Definition todayEntries (entries : list TimeEntry.t) (clock : Z) : list TimeEntry.t :=
  filter (λ e, isToday clock (TimeEntry.startTime e)) entries.

Definition calculateTotalSeconds (entries : list TimeEntry.t) (clock now : Z)
    (category : Category) : Z :=
  foldl (λ acc entry,
           let end' := orNum (TimeEntry.endTime entry) now in
           acc + differenceInSeconds end' (TimeEntry.startTime entry))
        0
        (filter (λ e, inCategory category e) (todayEntries entries clock)).

(** [n.toString().padStart(2, '0')] for an integer [n]. *)
Definition pad2 (n : Z) : string :=
  let s := pretty n in
  match String.length s with
  | 0%nat => "00"
  | 1%nat => "0" +:+ s
  | _ => s
  end.

(** The three numbers of [formatDuration]: [Math.floor(seconds / 3600)],
    [Math.floor((seconds % 3600) / 60)], [seconds % 60]; [%] takes the sign
    of the dividend. *)
Definition durationParts (seconds : Z) : Z * Z * Z :=
  (seconds `div` 3600, (seconds `rem` 3600) `div` 60, seconds `rem` 60).

Definition formatDuration (seconds : Z) : string :=
  let '(h, m, s) := durationParts seconds in
  pad2 h +:+ ":" +:+ pad2 m +:+ ":" +:+ pad2 s.

(** [entries.find(e => e.endTime === null)] *)
Definition activeEntry (entries : list TimeEntry.t) : option TimeEntry.t :=
  snd <$> list_find TimeEntry.isOpen entries.

Definition currentDuration (entries : list TimeEntry.t) (now : Z) : Z :=
  match activeEntry entries with
  | Some e => differenceInSeconds now (TimeEntry.startTime e)
  | None => 0
  end.

(** The seconds shown as remaining, when the active entry has a target:
    [Math.max(0, activeEntry.targetDuration - currentDuration)]. *)
Definition remaining (entries : list TimeEntry.t) (now : Z) : option Z :=
  match activeEntry entries with
  | Some e =>
      if truthyNum (TimeEntry.targetDuration e)
      then Some (Z.max 0 (default 0 (TimeEntry.targetDuration e) - currentDuration entries now))
      else None
  | None => None
  end.

(** [handleSaveEntry]: an entry with an id is an edit; one without is added
    when it has a start and a type. The object handed to [addManualEntry]
    has no [targetDuration] and no [isWorkingBreak] key. *)
Definition handleSaveEntry (entry : Store.PartialEntry) (uuid : string)
    (s : Store.TimeStore) : Store.TimeStore :=
  match truthyStr (Store.u_id entry) with
  | Some id => Store.updateEntry id entry s
  | None =>
      match Store.u_startTime entry, Store.u_type entry with
      | Some startTime, Some type =>
          if startTime =? 0 then s
          else
            Store.addManualEntry
              (TimeEntry.mk "" startTime
                 (match Store.u_endTime entry with
                  | Some (Some t) => if t =? 0 then None else Some t
                  | _ => None
                  end)
                 type
                 (mjoin (Store.u_projectId entry))
                 (default [] (Store.u_tagIds entry))
                 (mjoin (Store.u_notes entry))
                 None None)
              uuid s
      | _, _ => s
      end
  end.

End Dashboard.

(** ** The schedule rows ([src/components/ScheduleTimeline.tsx])

    [now] is the [new Date()] read for an entry that is still running. *)

Module Timeline.
Import DateFns.

(** The entries of one row: those that start on the day. *)
Definition dayEntries (entries : list TimeEntry.t) (day : Z) : list TimeEntry.t :=
  let dayStart := startOfDay day in
  let dayEnd := endOfDay day in
  filter (λ e, (dayStart <=? TimeEntry.startTime e) && (TimeEntry.startTime e <? dayEnd))
         entries.

Definition getEntryStyle (entry : TimeEntry.t) : string :=
  if decide (TimeEntry.type entry = work)
  then "bg-primary/80 border-primary hover:bg-primary"
  else if truthyBool (TimeEntry.isWorkingBreak entry)
  then "bg-blue-400/80 border-blue-400 hover:bg-blue-400"
  else "bg-orange-400/80 border-orange-400 hover:bg-orange-400".

Definition startMinutes (entry : TimeEntry.t) : Z :=
  getHours (TimeEntry.startTime entry) * 60 + getMinutes (TimeEntry.startTime entry).

(** [left], in percent of the row. *)
Definition left (entry : TimeEntry.t) : Q :=
  (inject_Z (startMinutes entry) / 1440 * 100)%Q.

(** [duration], with the visual minimum of five minutes. *)
Definition duration (now : Z) (entry : TimeEntry.t) : Z :=
  let end' := orNum (TimeEntry.endTime entry) now in
  let duration := differenceInMinutes end' (TimeEntry.startTime entry) in
  if duration <? 5 then 5 else duration.

(** [width], in percent of the row. *)
Definition width (now : Z) (entry : TimeEntry.t) : Q :=
  (inject_Z (duration now entry) / 1440 * 100)%Q.

End Timeline.

(** ** The aggregation rules as the specification words them *)

Module Spec.

(** "effective_end(E) = E.endTime if present else now()" *)
Definition effective_end (now : Z) (e : TimeEntry.t) : Z :=
  match TimeEntry.endTime e with
  | Some t => t
  | None => now
  end.

(** "duration = max(0, clip_end - clip_start)", in milliseconds. *)
Definition clipped (now w_start w_end : Z) (e : TimeEntry.t) : Z :=
  let clip_start := Z.max (TimeEntry.startTime e) w_start in
  let clip_end := Z.min (effective_end now e) w_end in
  Z.max 0 (clip_end - clip_start).

(** "active = work entries plus break entries flagged isWorkingBreak;
    rest = break entries not flagged". *)
Definition isActive (e : TimeEntry.t) : bool :=
  match TimeEntry.type e with
  | work => true
  | break => truthyBool (TimeEntry.isWorkingBreak e)
  end.

Definition inCategory (category : Dashboard.Category) (e : TimeEntry.t) : bool :=
  match category with
  | Dashboard.active => isActive e
  | Dashboard.rest => negb (isActive e)
  end.

(** "Both computed via the same clip formula against the single day's
    bounds": the category's clipped durations summed, in milliseconds. *)
Definition dayTotal (entries : list TimeEntry.t) (now dayStart dayEnd : Z)
    (category : Dashboard.Category) : Z :=
  foldr (λ e acc, clipped now dayStart dayEnd e + acc) 0
        (filter (λ e, inCategory category e) entries).

(** The entries the code counts: [isToday(e.startTime)] and the category. *)
Definition counted (entries : list TimeEntry.t) (clock : Z) (category : Dashboard.Category)
  : list TimeEntry.t :=
  filter (λ e, inCategory category e) (Dashboard.todayEntries entries clock).

(** An entry that lies within the day: starts at or after midnight, does
    not end before it starts, and its effective end is within the day. *)
Definition withinDay (clock now : Z) (e : TimeEntry.t) : Prop :=
  TimeEntry.endTime e ≠ Some 0 ∧
  DateFns.startOfDay clock ≤ TimeEntry.startTime e ∧
  TimeEntry.startTime e ≤ effective_end now e ∧
  effective_end now e ≤ DateFns.endOfDay clock.

(** The same total with each entry's clipped duration taken in whole
    seconds. *)
Definition dayTotalSeconds (entries : list TimeEntry.t) (now dayStart dayEnd : Z)
    (category : Dashboard.Category) : Z :=
  sumZ ((λ e, clipped now dayStart dayEnd e `quot` 1000)
          <$> filter (λ e, inCategory category e) entries).

End Spec.

(** ** The CSV import of the settings page ([src/unnamed/part_000], [Settings])

    [handleImport] runs over [results.data], the rows Papa.parse returns
    with [header: true]: every column is text and may be missing. The model
    takes the rows as they come out of the parser; the [type] column is
    read as an [EntryType] (missing or empty is [None]), and
    [new Date(text).getTime()] is the parameter [getTime]. The handler reads
    the projects from [store], the snapshot of the state the component was
    rendered with, while [addProject] and [addManualEntry] act on the live
    state; [uuids] gives the successive results of [crypto.randomUUID()]. *)

Module Settings.

Record Row := mkRow {
  r_startTime : option string;
  r_endTime : option string;
  r_type : option EntryType;
  r_projectName : option string;
  r_notes : option string
}.

(** [store.projects.find(p => p.name === row.projectName)] *)
Definition findByName (projects : list Project.t) (name : string) : option Project.t :=
  snd <$> list_find (λ p, Project.name p = name) projects.

(** The live state, the number of ids drawn so far, and [addedCount]. *)
Record ImportState := mkImportState {
  st_store : Store.TimeStore;
  st_next : nat;
  st_added : nat
}.

Section Rows.
Variable getTime : string → Z.
Variable uuids : nat → string.

(** The callback of [importedData.forEach]. *)
Definition importRow (snapshot : list Project.t) (st : ImportState) (row : Row)
  : ImportState :=
  match truthyStr (r_startTime row) with
  | None => st
  | Some startText =>
      let '(projectId, store1, next1) :=
        match truthyStr (r_projectName row) with
        | Some name =>
            match findByName snapshot name with
            | Some p => (Some (Project.id p), st_store st, st_next st)
            | None =>
                (None,
                 Store.addProject (Project.mk "" name "#999999" None)
                   (uuids (st_next st)) (st_store st),
                 S (st_next st))
            end
        | None => (None, st_store st, st_next st)
        end in
      let start := getTime startText in
      let end' := getTime <$> truthyStr (r_endTime row) in
      mkImportState
        (Store.addManualEntry
           (TimeEntry.mk "" start end' (default work (r_type row)) projectId []
              (r_notes row) None None)
           (uuids next1) store1)
        (S next1) (S (st_added st))
  end.

Definition handleImport (rows : list Row) (snapshot : list Project.t)
    (s : Store.TimeStore) : ImportState :=
  foldl (importRow snapshot) (mkImportState s 0 0) rows.

End Rows.

(** The rows that are imported: those with a start. *)
Definition hasStart (row : Row) : Prop := is_Some (truthyStr (r_startTime row)).

Global Instance hasStart_dec row : Decision (hasStart row).
Proof. unfold hasStart. apply _. Defined.

(** The project name of an imported row when the snapshot has no project
    of that name. *)
Definition unknownName (snapshot : list Project.t) (row : Row) : option string :=
  match truthyStr (r_startTime row), truthyStr (r_projectName row) with
  | Some _, Some name =>
      match findByName snapshot name with
      | Some _ => None
      | None => Some name
      end
  | _, _ => None
  end.

(** What an imported entry looks like, whatever its row: no tags, no
    target, no working-break flag, and no project or one of the snapshot. *)
Definition bare (snapshot : list Project.t) (e : TimeEntry.t) : Prop :=
  TimeEntry.tagIds e = [] ∧ TimeEntry.targetDuration e = None ∧
  TimeEntry.isWorkingBreak e = None ∧
  (TimeEntry.projectId e = None ∨
   ∃ p, p ∈ snapshot ∧ TimeEntry.projectId e = Some (Project.id p)).

End Settings.

(** ** Sample data used to exercise the statements below *)

Module Demo.

Definition demoCalls : list Store.StartArgs :=
  [ Store.mkStart 1000 "u1" work None None None None;
    Store.mkStart 5000 "u2" break None (Some []) None (Some true) ].

Definition demoStore : Store.TimeStore :=
  Store.mkStore
    [ TimeEntry.mk "e1" 1000 (Some 2000) work None [] None None None;
      TimeEntry.mk "e2" 3000 None break (Some "p1") [] None (Some 300) (Some false) ]
    [ Project.mk "p1" "Alpha" "#f00" None ]
    [].

(** 2024-01-01T00:00:00.000Z and the day after. *)
Definition day1 : Z := 1704067200000.
Definition day2 : Z := 1704153600000.

Definition mkWork (start : Z) (end' : option Z) (projectId : option string) : TimeEntry.t :=
  TimeEntry.mk "w" start end' work projectId [] None None None.

(** Started on day 1 at 22:00 and still running; the report range is day 2
    and the clock reads 01:00 of the day after day 2. *)
Definition runningEntry : TimeEntry.t := mkWork (day1 + 79200000) None None.
Definition day2Range : DateFns.Interval :=
  DateFns.mkInterval day2 (day2 + 86399999).
Definition afterDay2 : Z := day2 + 90000000.

(** 23:30 of day 1 to 00:30 of day 2; the report range covers both days. *)
Definition midnightEntry : TimeEntry.t :=
  mkWork (day1 + 84600000) (Some (day2 + 1800000)) None.
Definition twoDays : DateFns.Interval :=
  DateFns.mkInterval day1 (day2 + 86399999).

(** Work entries of 1 h, 2 h and 30 min on day 1 for project p1, and the
    range of the two days. *)
Definition threeEntries : list TimeEntry.t :=
  [ mkWork (day1 + 32400000) (Some (day1 + 36000000)) (Some "p1");
    mkWork (day1 + 39600000) (Some (day1 + 46800000)) (Some "p1");
    mkWork (day1 + 50400000) (Some (day1 + 52200000)) (Some "p1") ].
Definition alpha : Project.t := Project.mk "p1" "Alpha" "#f00" None.

(** The specification's example: an entry 10:00-10:30 of day 1 against the
    window 09:00-10:15, read at 11:00. *)
Definition tenToHalfPast : TimeEntry.t :=
  mkWork (day1 + 36000000) (Some (day1 + 37800000)) (Some "p1").
Definition nineToQuarterPast : DateFns.Interval :=
  DateFns.mkInterval (day1 + 32400000) (day1 + 36900000).
Definition elevenOClock : Z := day1 + 39600000.

(** 23:00 of day 1 to 01:00 of day 2, looked at at noon of day 2. *)
Definition overnightEntry : TimeEntry.t :=
  mkWork (day1 + 82800000) (Some (day2 + 3600000)) None.
Definition noonDay2 : Z := day2 + 43200000.

(** Entered with its end an hour before its start, on day 2. *)
Definition backwardsEntry : TimeEntry.t :=
  mkWork (day2 + 36000000) (Some (day2 + 32400000)) None.

(** A morning of day 2: work, a working break, a rest break, work still
    running at noon. *)
Definition morning : list TimeEntry.t :=
  [ TimeEntry.mk "m1" (day2 + 28800000) (Some (day2 + 32400500)) work None [] None None None;
    TimeEntry.mk "m2" (day2 + 32400500) (Some (day2 + 33000500)) break None [] None None (Some true);
    TimeEntry.mk "m3" (day2 + 33000500) (Some (day2 + 33900500)) break None [] None None (Some false);
    TimeEntry.mk "m4" (day2 + 33900500) None work None [] None None None ].

(** The running entry of above, assigned to project p1. *)
Definition runningForP1 : TimeEntry.t := mkWork (day1 + 79200000) None (Some "p1").

(** Three short work entries without project on day 1, of 0.1 s, 52.2 s and
    7.7 s: 60 s in all. *)
Definition sixtySeconds : list TimeEntry.t :=
  [ mkWork (day1 + 1000) (Some (day1 + 1100)) None;
    mkWork (day1 + 2000) (Some (day1 + 54200)) None;
    mkWork (day1 + 60000) (Some (day1 + 67700)) None ].

(** Two rows naming a project the store does not have, a row without a
    start, and a row for the project Alpha. *)
Definition csvRows : list Settings.Row :=
  [ Settings.mkRow (Some "2024-01-01T09:00:00.000Z") (Some "2024-01-01T10:00:00.000Z")
      (Some work) (Some "Beta") (Some "");
    Settings.mkRow (Some "2024-01-01T11:00:00.000Z") None None (Some "Beta") None;
    Settings.mkRow (Some "") None None None None;
    Settings.mkRow (Some "2024-01-01T14:00:00.000Z") (Some "2024-01-01T14:30:00.000Z")
      (Some break) (Some "Alpha") None ].

End Demo.

(** Decide the head of a [filter] whose boolean test is known by [H]. *)
Ltac filter_head H :=
  first [ rewrite filter_cons_True by (rewrite H; exact I)
        | rewrite filter_cons_False by (rewrite H; exact (λ x, x)) ].

(** * Properties of the store *)

Module StoreProps.
Import Store Demo.

Lemma with_endTime_closed e now : ¬ TimeEntry.isOpen (TimeEntry.with_endTime e (Some now)).
Proof. unfold TimeEntry.isOpen. simpl. discriminate. Qed.

Lemma newEntry_open a : TimeEntry.isOpen (newEntry a).
Proof. reflexivity. Qed.

(** The first open entry splits the list: everything before it is closed. *)
Lemma find_open_split (l : list TimeEntry.t) i e :
  list_find TimeEntry.isOpen l = Some (i, e) →
  ∃ l1 l2, l = l1 ++ e :: l2 ∧ length l1 = i ∧ Forall closed l1 ∧ TimeEntry.isOpen e.
Proof.
  intros (Hi & He & Hbefore)%list_find_Some.
  exists (take i l), (drop (S i) l). split_and!.
  - by rewrite take_drop_middle.
  - apply length_take_le. apply lookup_lt_Some in Hi. lia.
  - apply Forall_lookup. intros j x Hj.
    apply lookup_take_Some in Hj as [Hj Hlt]. eauto.
  - done.
Qed.

Lemma find_open_at (l1 l2 : list TimeEntry.t) e :
  Forall closed l1 → TimeEntry.isOpen e →
  list_find TimeEntry.isOpen (l1 ++ e :: l2) = Some (length l1, e).
Proof.
  intros H1 He. apply list_find_Some. split_and!.
  - by rewrite list_lookup_middle.
  - done.
  - intros j y Hj Hlt. rewrite lookup_app_l in Hj by done.
    exact (Forall_lookup_1 _ _ _ _ H1 Hj).
Qed.

Lemma insert_middle (l1 l2 : list TimeEntry.t) e e' :
  <[length l1 := e']> (l1 ++ e :: l2) = l1 ++ e' :: l2.
Proof. by rewrite insert_app_r_alt, Nat.sub_diag by lia. Qed.

Lemma openEntries_closed l : Forall closed l → openEntries l = [].
Proof.
  unfold openEntries. induction 1 as [|x l Hx _ IH]; [done|].
  by rewrite filter_cons_False.
Qed.

Lemma openEntries_app l1 l2 : openEntries (l1 ++ l2) = openEntries l1 ++ openEntries l2.
Proof. apply filter_app. Qed.

Lemma openEntries_nil_closed l : openEntries l = [] → Forall closed l.
Proof.
  unfold openEntries. induction l as [|x l IH]; [constructor|].
  destruct (decide (TimeEntry.isOpen x)) as [Hx|Hx].
  - by rewrite filter_cons_True.
  - rewrite filter_cons_False by done. auto.
Qed.

(** With at most one open entry, closing the first one closes them all. *)
Lemma closeActive_no_open now l :
  (length (openEntries l) ≤ 1)%nat → openEntries (closeActive now l) = [].
Proof.
  intros Hle. unfold closeActive.
  destruct (list_find TimeEntry.isOpen l) as [[i e]|] eqn:Hfind.
  - apply find_open_split in Hfind as (l1 & l2 & -> & <- & Hl1 & He).
    rewrite insert_middle.
    rewrite openEntries_app in Hle |- *.
    rewrite (openEntries_closed l1) in Hle |- * by done. simpl in *.
    unfold openEntries in *.
    rewrite filter_cons_True in Hle by done.
    rewrite filter_cons_False by apply with_endTime_closed.
    simpl in Hle. destruct (filter _ l2); [done | simpl in Hle; lia].
  - apply openEntries_closed.
    exact (proj1 (list_find_None TimeEntry.isOpen l) Hfind).
Qed.

Lemma startEntry_open_entries a s :
  (length (openEntries (entries s)) ≤ 1)%nat →
  openEntries (entries (startEntry a s)) = [newEntry a].
Proof.
  intros Hle. unfold startEntry. simpl.
  rewrite openEntries_app, closeActive_no_open by done.
  unfold openEntries. by rewrite filter_cons_True by apply newEntry_open.
Qed.

Lemma startEntries_snoc calls a s :
  startEntries (calls ++ [a]) s = startEntry a (startEntries calls s).
Proof. unfold startEntries. by rewrite foldl_app. Qed.

Lemma startEntries_invariant calls :
  (length (openEntries (entries (startEntries calls initial))) ≤ 1)%nat.
Proof.
  induction calls as [|a calls IH] using rev_ind.
  - simpl. lia.
  - rewrite startEntries_snoc, startEntry_open_entries by done. simpl. lia.
Qed.

(** C1. After any run of [startEntry] calls from the empty store at most one
    entry has [endTime = null]; and a further [startEntry] rewrites the open
    entry it finds (at its index) with [endTime = now], appends the new
    entry, and leaves the new entry as the only open one. *)
Theorem startEntry_single_open (calls : list StartArgs) :
  let s := startEntries calls initial in
  (length (openEntries (entries s)) ≤ 1)%nat ∧
  ∀ a : StartArgs,
    (∀ i e, list_find TimeEntry.isOpen (entries s) = Some (i, e) →
       entries (startEntry a s)
       = <[i := TimeEntry.with_endTime e (Some (a_now a))]> (entries s) ++ [newEntry a]) ∧
    TimeEntry.endTime (newEntry a) = None ∧
    openEntries (entries (startEntry a s)) = [newEntry a].
Proof.
  intros s. pose proof (startEntries_invariant calls) as Hinv. fold s in Hinv.
  split; [done|]. intros a. split_and!.
  - intros i e Hfind. unfold startEntry, closeActive. simpl. by rewrite Hfind.
  - done.
  - by apply startEntry_open_entries.
Qed.

Lemma startEntry_single_open_witness :
  entries (startEntry (mkStart 9000 "u3" work (Some "p") None (Some 60) None)
             (startEntries demoCalls initial))
  = [ TimeEntry.mk "u1" 1000 (Some 5000) work None [] None (Some 1500) (Some false);
      TimeEntry.mk "u2" 5000 (Some 9000) break None [] None (Some 300) (Some true);
      TimeEntry.mk "u3" 9000 None work (Some "p") [] None (Some 60) (Some false) ].
Proof.
  destruct (startEntry_single_open demoCalls) as [_ H].
  destruct (H (mkStart 9000 "u3" work (Some "p") None (Some 60) None)) as [H1 _].
  rewrite (H1 1%nat (TimeEntry.mk "u2" 5000 None break None [] None (Some 300) (Some true)));
    reflexivity.
Defined.

(** C8. [stopEntry] rewrites the first open entry with [endTime = now] and
    touches nothing else; with no open entry the state is returned as is. *)
Theorem stopEntry_spec (now : Z) (s : TimeStore) :
  (∀ l1 e l2,
     entries s = l1 ++ e :: l2 → Forall closed l1 → TimeEntry.endTime e = None →
     stopEntry now s
     = mkStore (l1 ++ TimeEntry.with_endTime e (Some now) :: l2) (projects s) (tags s)) ∧
  (Forall (λ e, TimeEntry.endTime e ≠ None) (entries s) → stopEntry now s = s).
Proof.
  split.
  - intros l1 e l2 Hs Hl1 He. unfold stopEntry.
    rewrite Hs, find_open_at by done. unfold set_entries.
    by rewrite insert_middle.
  - intros Hall. unfold stopEntry.
    by rewrite (proj2 (list_find_None TimeEntry.isOpen (entries s)) Hall).
Qed.

Lemma stopEntry_spec_witness :
  stopEntry 7000 demoStore
  = mkStore
      [ TimeEntry.mk "e1" 1000 (Some 2000) work None [] None None None;
        TimeEntry.mk "e2" 3000 (Some 7000) break (Some "p1") [] None (Some 300) (Some false) ]
      [ Project.mk "p1" "Alpha" "#f00" None ] []
  ∧ stopEntry 9000 (stopEntry 7000 demoStore) = stopEntry 7000 demoStore.
Proof.
  split.
  - apply (proj1 (stopEntry_spec 7000 demoStore)
             [TimeEntry.mk "e1" 1000 (Some 2000) work None [] None None None]
             (TimeEntry.mk "e2" 3000 None break (Some "p1") [] None (Some 300) (Some false))
             []); [reflexivity | | reflexivity].
    repeat constructor. discriminate.
  - apply (proj2 (stopEntry_spec 9000 (stopEntry 7000 demoStore))).
    repeat constructor; discriminate.
Defined.

Lemma closeActive_all_closed now l :
  Forall closed l → closeActive now l = l.
Proof.
  intros Hall. unfold closeActive.
  by rewrite (proj2 (list_find_None TimeEntry.isOpen l) Hall).
Qed.

(** C7. From a state with no open entry, [startEntry] followed by
    [stopEntry] adds exactly one entry; it is closed, and its [endTime] is
    not before its [startTime] (the clock read by [stopEntry] is not behind
    the one read by [startEntry]). *)
Theorem start_then_stop (a : StartArgs) (now2 : Z) (s : TimeStore) :
  Forall (λ e, TimeEntry.endTime e ≠ None) (entries s) →
  a_now a ≤ now2 →
  let s' := stopEntry now2 (startEntry a s) in
  ∃ e t,
    entries s' = entries s ++ [e] ∧
    projects s' = projects s ∧ tags s' = tags s ∧
    e = TimeEntry.with_endTime (newEntry a) (Some now2) ∧
    TimeEntry.endTime e = Some t ∧
    TimeEntry.startTime e ≤ t.
Proof.
  intros Hall Hclock s'.
  exists (TimeEntry.with_endTime (newEntry a) (Some now2)), now2.
  subst s'. unfold startEntry, stopEntry. simpl.
  rewrite closeActive_all_closed by done.
  change (entries s ++ [newEntry a]) with (entries s ++ newEntry a :: []).
  rewrite find_open_at by (done || apply newEntry_open).
  simpl. by rewrite insert_middle.
Qed.

Lemma start_then_stop_witness :
  entries (stopEntry 7500 (startEntry (mkStart 7000 "u9" work None None None None)
                             (stopEntry 7000 demoStore)))
  = entries (stopEntry 7000 demoStore)
    ++ [TimeEntry.mk "u9" 7000 (Some 7500) work None [] None (Some 1500) (Some false)].
Proof.
  destruct (start_then_stop (mkStart 7000 "u9" work None None None None) 7500
              (stopEntry 7000 demoStore)) as (e & t & He & _ & _ & -> & _).
  - repeat constructor; discriminate.
  - simpl. lia.
  - exact He.
Defined.

(** C10. When [startEntry] finds an open entry, the [endTime] it writes
    into that entry is the [startTime] of the entry it appends. *)
Theorem switch_no_gap (a : StartArgs) (s : TimeStore) (i : nat) (e : TimeEntry.t) :
  list_find TimeEntry.isOpen (entries s) = Some (i, e) →
  let s' := startEntry a s in
  ∃ prev next,
    entries s' !! i = Some prev ∧
    last (entries s') = Some next ∧
    prev = TimeEntry.with_endTime e (Some (a_now a)) ∧
    next = newEntry a ∧
    TimeEntry.endTime prev = Some (TimeEntry.startTime next).
Proof.
  intros Hfind s'.
  exists (TimeEntry.with_endTime e (Some (a_now a))), (newEntry a).
  subst s'. unfold startEntry, closeActive. simpl. rewrite Hfind.
  apply list_find_Some in Hfind as (Hi & _ & _).
  pose proof (lookup_lt_Some _ _ _ Hi) as Hlt.
  split_and!; try done.
  - rewrite lookup_app_l by (by rewrite length_insert).
    by apply list_lookup_insert_eq.
  - apply last_snoc.
Qed.

Lemma switch_no_gap_witness :
  ∃ prev next,
    entries (startEntry (mkStart 8000 "u7" work None None None None) demoStore) !! 1%nat
      = Some prev ∧
    last (entries (startEntry (mkStart 8000 "u7" work None None None None) demoStore))
      = Some next ∧
    TimeEntry.endTime prev = Some 8000 ∧ TimeEntry.startTime next = 8000.
Proof.
  destruct (switch_no_gap (mkStart 8000 "u7" work None None None None) demoStore 1%nat
              (TimeEntry.mk "e2" 3000 None break (Some "p1") [] None (Some 300) (Some false))
              eq_refl) as (prev & next & H1 & H2 & -> & -> & H3).
  eexists _, _. split_and!; [exact H1 | exact H2 | reflexivity | reflexivity].
Defined.

(** C6. [importData] replaces the three collections by those of its
    argument, a missing one counting as empty; nothing of the prior state
    survives, and importing three empty collections gives the empty store. *)
Theorem importData_replaces (data : ImportData) (s : TimeStore) :
  entries (importData data s) = default [] (d_entries data) ∧
  projects (importData data s) = default [] (d_projects data) ∧
  tags (importData data s) = default [] (d_tags data) ∧
  (∀ s0 : TimeStore, importData data s0 = importData data s) ∧
  importData (mkImport None None None) s = initial ∧
  importData (mkImport (Some []) (Some []) (Some [])) s = initial.
Proof. by split_and!. Qed.

End StoreProps.

(** * Properties of the report aggregation *)

Module ReportsProps.
Import DateFns Reports Demo.

(** ** Rational arithmetic of the sums *)

Lemma Qmax0_scaled (x : Z) :
  (Qmax 0 (inject_Z x / 1000) == inject_Z (Z.max 0 x) / 1000)%Q.
Proof.
  destruct (Z.max_spec 0 x) as [[Hlt ->]|[Hle ->]].
  - apply Q.max_r. unfold Qle. simpl. lia.
  - rewrite Q.max_l; [reflexivity|]. unfold Qle. simpl. lia.
Qed.

Lemma orNum_effective_end (now : Z) (e : TimeEntry.t) :
  TimeEntry.endTime e ≠ Some 0 →
  orNum (TimeEntry.endTime e) now = Spec.effective_end now e.
Proof.
  unfold orNum, Spec.effective_end. intros Hnz.
  destruct (TimeEntry.endTime e) as [t|]; [|done].
  destruct (Z.eqb_spec t 0); [congruence | done].
Qed.

(** The callback's value is the specification's clipped duration, in seconds. *)
Lemma overlapSeconds_clipped (now lo hi : Z) (e : TimeEntry.t) :
  TimeEntry.endTime e ≠ Some 0 →
  (overlapSeconds now lo hi e == inject_Z (Spec.clipped now lo hi e) / 1000)%Q.
Proof.
  intros Hnz. unfold overlapSeconds, Spec.clipped.
  rewrite orNum_effective_end by done. apply Qmax0_scaled.
Qed.

Lemma overlapSeconds_nonneg (now lo hi : Z) (e : TimeEntry.t) :
  (0 <= overlapSeconds now lo hi e)%Q.
Proof. unfold overlapSeconds. apply Q.le_max_l. Qed.

Lemma foldl_Qplus_shift {A} (f : A → Q) (a : Q) (l : list A) :
  (foldl (λ acc e, acc + f e) a l == a + sumQ (f <$> l))%Q.
Proof.
  revert a. induction l as [|x l IH]; intros a.
  - change (a == a + 0)%Q. ring.
  - change (foldl (λ acc e, acc + f e) (a + f x) l == a + (f x + sumQ (f <$> l)))%Q.
    rewrite IH. ring.
Qed.

Lemma sumQ_nonneg (l : list Q) : Forall (λ q, (0 <= q)%Q) l → (0 <= sumQ l)%Q.
Proof.
  induction 1 as [|q l Hq _ IH]; [apply Qle_refl|].
  change (0 <= q + sumQ l)%Q. lra.
Qed.

(** [workSeconds] is the sum of the callback's values over the day's work
    entries: each entry contributes its own term. *)
Lemma workSeconds_sum (filtered : list TimeEntry.t) (now day : Z) :
  (workSeconds filtered now day
   == sumQ (overlapSeconds now (startOfDay day) (endOfDay day)
              <$> filter (λ e, isWork e) (dayEntries filtered now day)))%Q.
Proof.
  unfold workSeconds. rewrite foldl_Qplus_shift. ring.
Qed.

Lemma workSeconds_nonneg (filtered : list TimeEntry.t) (now day : Z) :
  (0 <= workSeconds filtered now day)%Q.
Proof.
  rewrite workSeconds_sum. apply sumQ_nonneg.
  apply Forall_fmap, Forall_forall. intros e _. apply overlapSeconds_nonneg.
Qed.

Lemma filteredEntries_singleton (e : TimeEntry.t) (range : Interval) (now : Z) :
  filteredEntries [e] range now = if inRange range now e then [e] else [].
Proof.
  unfold filteredEntries. destruct (inRange range now e) eqn:Hin; by filter_head Hin.
Qed.

(** The day filter only drops entries whose clipped duration is zero. *)
Lemma workSeconds_singleton (e : TimeEntry.t) (now day : Z) :
  TimeEntry.type e = work →
  (workSeconds [e] now day == overlapSeconds now (startOfDay day) (endOfDay day) e)%Q.
Proof.
  intros Hwork. unfold workSeconds, dayEntries.
  destruct ((TimeEntry.startTime e <? endOfDay day)
            && (startOfDay day <? orNum (TimeEntry.endTime e) now)) eqn:Hday.
  - filter_head Hday.
    rewrite filter_cons_True by (unfold isWork; by rewrite bool_decide_eq_true_2).
    change (0 + overlapSeconds now (startOfDay day) (endOfDay day) e
            == overlapSeconds now (startOfDay day) (endOfDay day) e)%Q.
    ring.
  - filter_head Hday. change (0 == overlapSeconds now (startOfDay day) (endOfDay day) e)%Q.
    unfold overlapSeconds. symmetry. rewrite Qmax0_scaled.
    apply andb_false_iff in Hday.
    rewrite Z.max_l; [reflexivity|].
    destruct Hday as [H|H]; apply Z.ltb_ge in H; lia.
Qed.

Lemma mapGet_mapSet_eq (k : string) (v : Q) (m : NumMap) :
  mapGet k (mapSet k v m) = Some v.
Proof.
  induction m as [|[k' v'] m IH]; simpl.
  - by rewrite decide_True.
  - destruct (decide (k = k')) as [->|Hne]; simpl.
    + by rewrite decide_True.
    + by rewrite decide_False.
Qed.

Lemma mapGet_mapSet_ne (k k' : string) (v : Q) (m : NumMap) :
  k ≠ k' → mapGet k' (mapSet k v m) = mapGet k' m.
Proof.
  intros Hne. induction m as [|[k0 v0] m IH]; simpl.
  - by rewrite decide_False.
  - destruct (decide (k = k0)) as [->|Hne0]; simpl.
    + by rewrite !decide_False by done.
    + destruct (decide (k' = k0)); [done | apply IH].
Qed.

(** The project bucket of a single work entry holds the callback's value. *)
Lemma pieAccumulate_singleton (e : TimeEntry.t) (range : Interval) (now : Z) :
  TimeEntry.type e = work →
  (bucketOf e (pieAccumulate [e] range now)
   == overlapSeconds now (start range) (end_ range) e)%Q.
Proof.
  intros Hwork. unfold pieAccumulate.
  rewrite filter_cons_True by (unfold isWork; by rewrite bool_decide_eq_true_2).
  change (bucketOf e (pieStep range now ([], 0%Q) e)
          == overlapSeconds now (start range) (end_ range) e)%Q.
  unfold bucketOf, pieStep.
  destruct (truthyStr (TimeEntry.projectId e)) as [pid|]; cbn [fst snd].
  - rewrite mapGet_mapSet_eq. cbn [from_option mapGet]. unfold id. ring.
  - ring.
Qed.

Lemma inRange_spec (e : TimeEntry.t) (range : Interval) (now : Z) :
  TimeEntry.endTime e ≠ Some 0 →
  inRange range now e = true ↔
    TimeEntry.startTime e ≤ end_ range ∧
    match TimeEntry.endTime e with
    | Some t => start range ≤ t
    | None => start range ≤ now ≤ end_ range
    end.
Proof.
  intros Hnz. unfold inRange, isWithinInterval, truthyNum, orNum.
  destruct (TimeEntry.endTime e) as [t|].
  - destruct (Z.eqb_spec t 0); [congruence|]. simpl.
    rewrite andb_true_iff, !Z.leb_le. tauto.
  - simpl.
    destruct (Z.leb_spec (start range) now), (Z.leb_spec now (end_ range));
      simpl; rewrite ?andb_true_iff, ?Z.leb_le; split; try lia; try discriminate.
Qed.

(** C2 (amended). A work entry whose [endTime] is not the number 0
    contributes, to a day bar and to its project bucket, the clipped duration
    [max(0, min(effective_end, W_end) - max(startTime, W_start))] (in
    seconds, the milliseconds over 1000) provided it passes the report's
    range filter: it starts no later than the range ends and, when closed,
    ends no earlier than the range starts, or, when open, the clock lies
    within the range. An entry the filter drops contributes zero to every
    bucket. The contribution is never negative, an entry outside the day
    window contributes zero, and an open entry that started before the day
    and passes the filter is clipped at the day's end. *)
Theorem clipped_contribution (e : TimeEntry.t) (range : Interval) (now day : Z) :
  TimeEntry.type e = work →
  TimeEntry.endTime e ≠ Some 0 →
  let filtered := filteredEntries [e] range now in
  let bar := workSeconds filtered now day in
  let pie := bucketOf e (pieAccumulate filtered range now) in
  let dayClip := Spec.clipped now (startOfDay day) (endOfDay day) e in
  let rangeClip := Spec.clipped now (start range) (end_ range) e in
  (inRange range now e = true ↔
     TimeEntry.startTime e ≤ end_ range ∧
     match TimeEntry.endTime e with
     | Some t => start range ≤ t
     | None => start range ≤ now ≤ end_ range
     end) ∧
  (inRange range now e = true →
     (bar == inject_Z dayClip / 1000)%Q ∧ (pie == inject_Z rangeClip / 1000)%Q) ∧
  (inRange range now e = false → (bar == 0)%Q ∧ (pie == 0)%Q) ∧
  ((0 <= bar)%Q ∧ (0 <= pie)%Q) ∧
  (Spec.effective_end now e < startOfDay day ∨ endOfDay day < TimeEntry.startTime e →
     (bar == 0)%Q) ∧
  (TimeEntry.endTime e = None → TimeEntry.startTime e ≤ startOfDay day →
   endOfDay day ≤ now → inRange range now e = true →
     (bar == inject_Z (endOfDay day - startOfDay day) / 1000)%Q).
Proof.
  intros Hwork Hnz filtered bar pie dayClip rangeClip.
  assert (Hin : inRange range now e = true →
            (bar == inject_Z dayClip / 1000)%Q ∧ (pie == inject_Z rangeClip / 1000)%Q).
  { intros Hr. subst bar pie filtered. rewrite filteredEntries_singleton, Hr. split.
    - rewrite workSeconds_singleton by done. by apply overlapSeconds_clipped.
    - rewrite pieAccumulate_singleton by done. by apply overlapSeconds_clipped. }
  assert (Hout : inRange range now e = false → (bar == 0)%Q ∧ (pie == 0)%Q).
  { intros Hr. subst bar pie filtered. rewrite filteredEntries_singleton, Hr.
    split; [reflexivity|]. unfold bucketOf, pieAccumulate. simpl.
    destruct (truthyStr (TimeEntry.projectId e)); reflexivity. }
  assert (Hclip0 : 0 ≤ dayClip ∧ 0 ≤ rangeClip)
    by (subst dayClip rangeClip; unfold Spec.clipped; lia).
  split_and!; try done.
  - by apply inRange_spec.
  - destruct (inRange range now e) eqn:Hr.
    + destruct Hin as [-> _]; [done|]. unfold Qle. simpl. lia.
    + destruct Hout as [-> _]; [done|]. apply Qle_refl.
  - destruct (inRange range now e) eqn:Hr.
    + destruct Hin as [_ ->]; [done|]. unfold Qle. simpl. lia.
    + destruct Hout as [_ ->]; [done|]. apply Qle_refl.
  - intros Houtside. destruct (inRange range now e) eqn:Hr.
    + destruct Hin as [-> _]; [done|].
      assert (dayClip = 0) as ->
        by (subst dayClip; unfold Spec.clipped; lia).
      reflexivity.
    + by destruct Hout as [-> _].
  - intros Hopen Hstart Hnow Hr. destruct Hin as [-> _]; [done|].
    assert (dayClip = endOfDay day - startOfDay day) as ->; [|reflexivity].
    subst dayClip. unfold Spec.clipped, Spec.effective_end. rewrite Hopen.
    unfold endOfDay, msPerDay in *. lia.
Qed.

Lemma clipped_contribution_witness :
  (bucketOf tenToHalfPast
     (pieAccumulate (filteredEntries [tenToHalfPast] nineToQuarterPast elevenOClock)
        nineToQuarterPast elevenOClock)
   == 15 * 60)%Q.
Proof.
  destruct (clipped_contribution tenToHalfPast nineToQuarterPast elevenOClock day1 eq_refl)
    as (_ & H & _).
  - discriminate.
  - destruct H as [_ H]; [reflexivity|]. rewrite H. reflexivity.
Defined.

(** C2 as stated fails: an entry that started before day 2 and is still
    running when the clock has left the report range is dropped by the range
    filter, so its contribution to the day-2 bar is zero, where the formula
    clips it at the end of the window (86 399.999 s). *)
Lemma clipped_contribution_counterexample :
  (workSeconds (filteredEntries [runningEntry] day2Range afterDay2) afterDay2 day2 == 0)%Q ∧
  Spec.clipped afterDay2 (startOfDay day2) (endOfDay day2) runningEntry = 86399999 ∧
  ¬ (workSeconds (filteredEntries [runningEntry] day2Range afterDay2) afterDay2 day2
     == inject_Z (Spec.clipped afterDay2 (startOfDay day2) (endOfDay day2) runningEntry)
        / 1000)%Q.
Proof.
  split_and!; [reflexivity | reflexivity |].
  intros H. vm_compute in H. discriminate H.
Qed.

(** C3 (evaluation). A work entry from 23:30 of day 1 to 00:30 of day 2
    contributes 1799.999 s to the day-1 bar, whose window ends at
    23:59:59.999, and 1800 s to the day-2 bar: one millisecond of the
    hour is in neither bucket, while the project total over the same two
    days counts the full 3600 s. Rounded to hundredths of an hour both
    bars show 0.50, one hour in all. *)
Theorem midnight_entry_day_buckets (now : Z) :
  let filtered := filteredEntries [midnightEntry] twoDays now in
  eachDayOfInterval twoDays = [day1; day2] ∧
  (workSeconds filtered now day1 == 1799999 # 1000)%Q ∧
  (workSeconds filtered now day2 == 30 * 60)%Q ∧
  ¬ (workSeconds filtered now day1 == 30 * 60)%Q ∧
  ¬ (workSeconds filtered now day1 + workSeconds filtered now day2 == 60 * 60)%Q ∧
  (bucketOf midnightEntry (pieAccumulate filtered twoDays now) == 60 * 60)%Q ∧
  barData filtered twoDays now = [mkBar (50 # 100) day1; mkBar (50 # 100) day2] ∧
  (totalWorkHours (barData filtered twoDays now) == 1)%Q.
Proof.
  split_and!; try reflexivity.
  - intros H. vm_compute in H. discriminate H.
  - intros H. vm_compute in H. discriminate H.
Qed.

(** ** The project map *)

Lemma sumQ_cons (q : Q) (l : list Q) : sumQ (q :: l) = (q + sumQ l)%Q.
Proof. reflexivity. Qed.

Lemma pieStep_keyed range now acc e pid :
  truthyStr (TimeEntry.projectId e) = Some pid →
  pieStep range now acc e
  = (mapSet pid (default 0 (mapGet pid (fst acc))
                 + overlapSeconds now (start range) (end_ range) e)%Q (fst acc),
     snd acc).
Proof. intros H. unfold pieStep. by rewrite H. Qed.

Lemma pieStep_unkeyed range now acc e :
  truthyStr (TimeEntry.projectId e) = None →
  pieStep range now acc e
  = (fst acc, (snd acc + overlapSeconds now (start range) (end_ range) e)%Q).
Proof. intros H. unfold pieStep. by rewrite H. Qed.

Lemma pie_fold_get range now pid (l : list TimeEntry.t) (acc : NumMap * Q) :
  (default 0 (mapGet pid (fst (foldl (pieStep range now) acc l)))
   == default 0 (mapGet pid (fst acc))
      + sumQ (overlapSeconds now (start range) (end_ range) <$> filter (keyedTo pid) l))%Q.
Proof.
  revert acc. induction l as [|e l IH]; intros acc.
  - change (default 0 (mapGet pid (fst acc)) == default 0 (mapGet pid (fst acc)) + 0)%Q. ring.
  - change (foldl (pieStep range now) acc (e :: l))
      with (foldl (pieStep range now) (pieStep range now acc e) l).
    rewrite IH. clear IH.
    destruct (truthyStr (TimeEntry.projectId e)) as [k|] eqn:Hk.
    + rewrite (pieStep_keyed _ _ _ _ k) by done. cbn [fst].
      destruct (decide (k = pid)) as [->|Hne].
      * rewrite mapGet_mapSet_eq, filter_cons_True by done.
        rewrite fmap_cons, sumQ_cons. cbn [from_option]. unfold id at 1. ring.
      * rewrite mapGet_mapSet_ne, filter_cons_False by congruence. reflexivity.
    + rewrite pieStep_unkeyed by done. cbn [fst].
      rewrite filter_cons_False by congruence. reflexivity.
Qed.

Lemma pie_fold_rest range now (l : list TimeEntry.t) (acc : NumMap * Q) :
  (snd (foldl (pieStep range now) acc l)
   == snd acc + sumQ (overlapSeconds now (start range) (end_ range) <$> filter unkeyed l))%Q.
Proof.
  revert acc. induction l as [|e l IH]; intros acc.
  - change (snd acc == snd acc + 0)%Q. ring.
  - change (foldl (pieStep range now) acc (e :: l))
      with (foldl (pieStep range now) (pieStep range now acc e) l).
    rewrite IH. clear IH.
    destruct (truthyStr (TimeEntry.projectId e)) as [k|] eqn:Hk.
    + rewrite (pieStep_keyed _ _ _ _ k) by done. cbn [snd].
      rewrite filter_cons_False by congruence. reflexivity.
    + rewrite pieStep_unkeyed by done. cbn [snd].
      rewrite filter_cons_True by done. rewrite fmap_cons, sumQ_cons. ring.
Qed.

Lemma mapSet_is_Some (k k' : string) (v : Q) (m : NumMap) :
  is_Some (mapGet k' (mapSet k v m)) ↔ k' = k ∨ is_Some (mapGet k' m).
Proof.
  destruct (decide (k = k')) as [->|Hne].
  - rewrite mapGet_mapSet_eq. split; eauto.
  - rewrite mapGet_mapSet_ne by done. split; [eauto | intros [->|]; done].
Qed.

Lemma pie_fold_keys range now pid (l : list TimeEntry.t) (acc : NumMap * Q) :
  is_Some (mapGet pid (fst (foldl (pieStep range now) acc l)))
  ↔ is_Some (mapGet pid (fst acc)) ∨ ∃ e, e ∈ l ∧ keyedTo pid e.
Proof.
  revert acc. induction l as [|e l IH]; intros acc.
  - simpl. split; [eauto|]. intros [|(e & He & _)]; [done|]. by apply elem_of_nil in He.
  - change (foldl (pieStep range now) acc (e :: l))
      with (foldl (pieStep range now) (pieStep range now acc e) l).
    rewrite IH. clear IH.
    destruct (truthyStr (TimeEntry.projectId e)) as [k|] eqn:Hk.
    + rewrite (pieStep_keyed _ _ _ _ k) by done. cbn [fst].
      rewrite mapSet_is_Some. split.
      * intros [[->|?]|(x & Hx & Hxk)]; eauto.
        -- right. exists e. split; [left | done].
        -- right. exists x. split; [by right | done].
      * intros [?|(x & Hx & Hxk)]; eauto.
        apply elem_of_cons in Hx as [->|Hx]; [|eauto].
        left. left. congruence.
    + rewrite pieStep_unkeyed by done. cbn [fst]. split.
      * intros [?|(x & Hx & Hxk)]; eauto.
        right. exists x. split; [by right | done].
      * intros [?|(x & Hx & Hxk)]; eauto.
        apply elem_of_cons in Hx as [->|Hx]; [congruence | eauto].
Qed.

Lemma pieData_rows filtered range projects now :
  pieData filtered range projects now
  = (projectRow projects <$> fst (pieAccumulate filtered range now))
    ++ (if Qlt_le_dec 60 (snd (pieAccumulate filtered range now))
        then [noProjectRow (snd (pieAccumulate filtered range now))] else []).
Proof.
  unfold pieData. destruct (pieAccumulate filtered range now) as [pm nps]. cbn [fst snd].
  destruct (Qlt_le_dec 60 nps); [done | by rewrite app_nil_r].
Qed.

Lemma workInside_inRange range pid dur now e :
  0 ≤ dur → workInside range pid dur e → inRange range now e = true.
Proof.
  intros Hdur (_ & _ & Hpos & Hlo & Hend & Hhi).
  apply inRange_spec; rewrite Hend.
  - intros [= ?]. lia.
  - split; lia.
Qed.

Lemma workInside_keyed range pid dur e :
  pid ≠ "" → workInside range pid dur e →
  isWork e = true ∧ truthyStr (TimeEntry.projectId e) = Some pid.
Proof.
  intros Hpid (Hwork & Hproj & _). split.
  - unfold isWork. by rewrite bool_decide_eq_true_2.
  - rewrite Hproj. simpl. by rewrite decide_False.
Qed.

Lemma works_elem (entries : list TimeEntry.t) range now e :
  e ∈ filter (λ e, isWork e) (filteredEntries entries range now)
  ↔ e ∈ entries ∧ inRange range now e = true ∧ TimeEntry.type e = work.
Proof.
  unfold filteredEntries, isWork.
  rewrite !list_elem_of_filter, bool_decide_spec, Is_true_true. tauto.
Qed.

(** With the clock inside the range, the range filter only drops entries
    whose clipped duration is zero. *)
Lemma dropped_clipped_zero range now e :
  isWithinInterval now range = true →
  TimeEntry.endTime e ≠ Some 0 →
  inRange range now e = false →
  Spec.clipped now (start range) (end_ range) e = 0.
Proof.
  intros Hnow Hnz Hdrop.
  assert (Hnot : ¬ (inRange range now e = true)) by (rewrite Hdrop; discriminate).
  rewrite (inRange_spec e range now Hnz) in Hnot.
  unfold isWithinInterval in Hnow. apply andb_true_iff in Hnow as [H1 H2].
  apply Z.leb_le in H1, H2.
  unfold Spec.clipped, Spec.effective_end.
  destruct (TimeEntry.endTime e) as [t|]; lia.
Qed.

(** ** Deleted projects *)

Lemma findProject_cons (p : Project.t) (l : list Project.t) (k : string) :
  findProject (p :: l) k = if decide (Project.id p = k) then Some p else findProject l k.
Proof.
  unfold findProject. simpl. destruct (decide (Project.id p = k)); [done|].
  by destruct (list_find _ l) as [[i x]|].
Qed.

Lemma findProject_deleted (l : list Project.t) (pid : string) :
  findProject (filter (λ p, Project.id p ≠ pid) l) pid = None.
Proof.
  induction l as [|p l IH]; [done|].
  destruct (decide (Project.id p = pid)) as [Heq|Hne].
  - by rewrite filter_cons_False by (intros H; by apply H).
  - rewrite filter_cons_True, findProject_cons by done. by rewrite decide_False.
Qed.

Lemma findProject_kept (l : list Project.t) (pid k : string) :
  k ≠ pid → findProject (filter (λ p, Project.id p ≠ pid) l) k = findProject l k.
Proof.
  intros Hk. induction l as [|p l IH]; [done|].
  rewrite (findProject_cons p l).
  destruct (decide (Project.id p = pid)) as [Heq|Hne].
  - rewrite filter_cons_False by (intros H; by apply H).
    rewrite decide_False by congruence. done.
  - rewrite filter_cons_True, findProject_cons by done. by rewrite IH.
Qed.

Lemma mapGet_elem (k : string) (m : NumMap) :
  is_Some (mapGet k m) → ∃ v, (k, v) ∈ m.
Proof.
  induction m as [|[k' v'] m IH]; simpl; [by intros [? [=]]|].
  destruct (decide (k = k')) as [->|Hne].
  - intros _. exists v'. left.
  - intros [v Hv]%IH. exists v. by right.
Qed.

(** C9. After [deleteProject pid] the entries are untouched (they keep
    their [projectId]), no project with that id is left, and the report is
    computed all the same: the bars are unchanged, every other key keeps
    its row, and the key [pid] gets the row named "Unknown"; each in-range
    work entry that still carries [pid] is counted in that row. *)
Theorem deleteProject_report (s : Store.TimeStore) (pid : string)
    (range : Interval) (now : Z) :
  let s' := Store.deleteProject pid s in
  let filtered := filteredEntries (Store.entries s) range now in
  let acc := pieAccumulate filtered range now in
  Store.entries s' = Store.entries s ∧
  Store.tags s' = Store.tags s ∧
  findProject (Store.projects s') pid = None ∧
  fst (report s' range now) = fst (report s range now) ∧
  snd (report s' range now)
  = ((λ kv, if decide (fst kv = pid) then unknownRow (snd kv)
            else projectRow (Store.projects s) kv) <$> fst acc)
    ++ (if Qlt_le_dec 60 (snd acc) then [noProjectRow (snd acc)] else []) ∧
  (∀ e, e ∈ Store.entries s → inRange range now e = true →
        TimeEntry.type e = work → TimeEntry.projectId e = Some pid → pid ≠ "" →
        ∃ seconds, (pid, seconds) ∈ fst acc ∧
                   unknownRow seconds ∈ snd (report s' range now)).
Proof.
  intros s' filtered acc.
  assert (Hrows : snd (report s' range now)
    = ((λ kv, if decide (fst kv = pid) then unknownRow (snd kv)
              else projectRow (Store.projects s) kv) <$> fst acc)
      ++ (if Qlt_le_dec 60 (snd acc) then [noProjectRow (snd acc)] else [])).
  { unfold report. cbn [snd]. subst s'. cbn [Store.deleteProject Store.set_projects
      Store.entries Store.projects].
    rewrite pieData_rows. fold filtered. fold acc. f_equal.
    apply list_fmap_ext. intros _ [k v] _. cbn [fst snd]. unfold projectRow. cbn [fst snd].
    destruct (decide (k = pid)) as [->|Hne].
    - by rewrite findProject_deleted.
    - by rewrite findProject_kept. }
  split_and!; try done.
  - apply findProject_deleted.
  - intros e He Hin Hwork Hproj Hpid.
    destruct (mapGet_elem pid (fst acc)) as [v Hv].
    { subst acc. unfold pieAccumulate. rewrite pie_fold_keys. right. exists e. split.
      - apply works_elem. done.
      - rewrite Hproj. simpl. by rewrite decide_False. }
    exists v. split; [done|]. rewrite Hrows. apply elem_of_app. left.
    apply list_elem_of_fmap. exists (pid, v). split; [|done].
    cbn [fst snd]. by rewrite decide_True.
Qed.

Lemma deleteProject_report_witness :
  snd (report (Store.deleteProject "p1" (Store.mkStore threeEntries [alpha] []))
         twoDays elevenOClock)
  = [mkPie "Unknown" (350 # 100) "#999"] ∧
  ∃ seconds,
    ("p1", seconds)
      ∈ fst (pieAccumulate (filteredEntries threeEntries twoDays elevenOClock)
               twoDays elevenOClock) ∧
    unknownRow seconds
      ∈ snd (report (Store.deleteProject "p1" (Store.mkStore threeEntries [alpha] []))
               twoDays elevenOClock).
Proof.
  destruct (deleteProject_report (Store.mkStore threeEntries [alpha] []) "p1"
              twoDays elevenOClock) as (_ & _ & _ & _ & H & Hex).
  split.
  - rewrite H. reflexivity.
  - apply (Hex (mkWork (day1 + 32400000) (Some (day1 + 36000000)) (Some "p1")));
      [left | reflexivity | reflexivity | reflexivity | done].
Defined.

End ReportsProps.

(** * Properties of today's totals *)

Module DashboardProps.
Import DateFns Dashboard Demo.

Lemma foldl_Zplus_shift {A} (f : A → Z) (a : Z) (l : list A) :
  foldl (λ acc e, acc + f e) a l = a + sumZ (f <$> l).
Proof.
  revert a. induction l as [|x l IH]; intros a.
  - change (a = a + 0). lia.
  - change (foldl (λ acc e, acc + f e) (a + f x) l = a + (f x + sumZ (f <$> l))).
    rewrite IH. lia.
Qed.

Lemma startOfDay_multiple (t : Z) : startOfDay t = msPerDay * (t `div` msPerDay).
Proof. unfold startOfDay, msPerDay. Z.div_mod_to_equations. lia. Qed.

(** An instant between a day's midnight and its last millisecond is on
    that day. *)
Lemma startOfDay_within (clock t : Z) :
  startOfDay clock ≤ t ≤ endOfDay clock → startOfDay t = startOfDay clock.
Proof.
  unfold endOfDay, startOfDay, msPerDay. Z.div_mod_to_equations. lia.
Qed.

Lemma isToday_within (clock t : Z) :
  startOfDay clock ≤ t ≤ endOfDay clock → isToday clock t = true.
Proof. intros H. unfold isToday. apply Z.eqb_eq. by apply startOfDay_within. Qed.

Lemma inCategory_spec (category : Category) (e : TimeEntry.t) :
  inCategory category e = Spec.inCategory category e.
Proof.
  unfold inCategory, Spec.inCategory, Spec.isActive.
  destruct category, (TimeEntry.type e); simpl; try done.
  all: by destruct (truthyBool _).
Qed.

Lemma counted_eq entries clock category :
  filter (λ e, inCategory category e) (todayEntries entries clock)
  = Spec.counted entries clock category.
Proof.
  unfold Spec.counted. apply list_filter_iff. intros e. by rewrite inCategory_spec.
Qed.


Lemma total_counted entries clock now category :
  calculateTotalSeconds entries clock now category
  = sumZ ((λ e, differenceInSeconds (orNum (TimeEntry.endTime e) now) (TimeEntry.startTime e))
            <$> Spec.counted entries clock category).
Proof.
  unfold calculateTotalSeconds. rewrite counted_eq.
  by rewrite (foldl_Zplus_shift
    (λ e, differenceInSeconds (orNum (TimeEntry.endTime e) now) (TimeEntry.startTime e))).
Qed.

Lemma todayEntries_within entries clock now :
  Forall (Spec.withinDay clock now) entries → todayEntries entries clock = entries.
Proof.
  unfold todayEntries. induction 1 as [|e l He _ IH]; [done|].
  rewrite filter_cons_True, IH; [done|].
  destruct He as (_ & Hlo & Hle & Hhi).
  rewrite isToday_within; [done | lia].
Qed.

Lemma withinDay_clipped clock now e :
  Spec.withinDay clock now e →
  differenceInSeconds (orNum (TimeEntry.endTime e) now) (TimeEntry.startTime e)
  = Spec.clipped now (startOfDay clock) (endOfDay clock) e `quot` 1000.
Proof.
  intros (Hnz & Hlo & Hle & Hhi). unfold differenceInSeconds, Spec.clipped.
  rewrite ReportsProps.orNum_effective_end by done. f_equal. lia.
Qed.

(** C4 (amended). The "active" total runs over work entries and breaks
    flagged [isWorkingBreak], the "rest" total over the other breaks, both
    over the entries whose [startTime] is on the current day only. Each
    counted entry adds its whole duration [effective_end - startTime] in
    whole seconds (rounded toward zero), with [now] as the end of an open
    entry; nothing is clipped to the day's bounds or floored at zero. When
    every entry lies within the day and does not end before it starts, the
    total is the clipped-duration total of the category, each entry taken
    in whole seconds. *)
Theorem today_totals (entries : list TimeEntry.t) (clock now : Z) (category : Category) :
  let total := calculateTotalSeconds entries clock now category in
  let counted := Spec.counted entries clock category in
  (∀ e, e ∈ counted ↔
        e ∈ entries ∧ startOfDay (TimeEntry.startTime e) = startOfDay clock ∧
        Spec.inCategory category e = true) ∧
  (∀ e, inCategory active e = true ↔
        TimeEntry.type e = work ∨
        (TimeEntry.type e = break ∧ TimeEntry.isWorkingBreak e = Some true)) ∧
  (∀ e, inCategory rest e = true ↔
        TimeEntry.type e = break ∧ TimeEntry.isWorkingBreak e ≠ Some true) ∧
  (∀ e, inCategory category e = Spec.inCategory category e) ∧
  (Forall (λ e, TimeEntry.endTime e ≠ Some 0) counted →
     total = sumZ ((λ e, (Spec.effective_end now e - TimeEntry.startTime e) `quot` 1000)
                     <$> counted)) ∧
  (Forall (Spec.withinDay clock now) entries →
     total = Spec.dayTotalSeconds entries now (startOfDay clock) (endOfDay clock) category).
Proof.
  intros total counted. split_and!.
  - intros e. subst counted. unfold Spec.counted, todayEntries, isToday.
    rewrite !list_elem_of_filter, !Is_true_true, Z.eqb_eq. tauto.
  - intros e. unfold inCategory.
    destruct (TimeEntry.type e), (TimeEntry.isWorkingBreak e) as [[]|]; simpl;
      split; intros H; try done; auto; destruct H as [H|[H1 H2]]; done.
  - intros e. unfold inCategory.
    destruct (TimeEntry.type e), (TimeEntry.isWorkingBreak e) as [[]|]; simpl;
      split; intros H; try done; destruct H as [H1 H2]; done.
  - intros e. apply inCategory_spec.
  - intros Hnz. subst total counted. rewrite total_counted. f_equal.
    apply Forall_fmap_ext. eapply Forall_impl; [exact Hnz|].
    intros e He. simpl. unfold differenceInSeconds.
    by rewrite ReportsProps.orNum_effective_end.
  - intros Hday. subst total. rewrite total_counted. unfold Spec.dayTotalSeconds, Spec.counted.
    rewrite (todayEntries_within _ _ now) by done. f_equal.
    apply Forall_fmap_ext, Forall_forall. intros e [_ He]%list_elem_of_filter.
    apply withinDay_clipped. by eapply Forall_forall in Hday.
Qed.

Lemma today_totals_witness :
  calculateTotalSeconds morning noonDay2 noonDay2 active = 3600 + 600 + 9299 ∧
  calculateTotalSeconds morning noonDay2 noonDay2 rest = 900 ∧
  Spec.dayTotalSeconds morning noonDay2 (startOfDay noonDay2) (endOfDay noonDay2) active
  = 3600 + 600 + 9299.
Proof.
  destruct (today_totals morning noonDay2 noonDay2 active) as (_ & _ & _ & _ & Ha & Hd).
  destruct (today_totals morning noonDay2 noonDay2 rest) as (_ & _ & _ & _ & Hr & _).
  split_and!.
  - rewrite Ha; [reflexivity|]. repeat constructor; discriminate.
  - rewrite Hr; [reflexivity|]. repeat constructor; discriminate.
  - rewrite <- Hd; [reflexivity|].
    repeat constructor; try discriminate; by vm_compute.
Defined.

(** C4 as stated fails: an entry from 23:00 of the day before to 01:00 of
    the current day is not counted at all (its [startTime] is not today),
    where clipping it to the day gives one hour. *)
Lemma today_totals_counterexample :
  calculateTotalSeconds [overnightEntry] noonDay2 noonDay2 active = 0 ∧
  Spec.dayTotal [overnightEntry] noonDay2 (startOfDay noonDay2) (endOfDay noonDay2) active
  = 3600000 ∧
  calculateTotalSeconds [overnightEntry] noonDay2 noonDay2 active * 1000
  ≠ Spec.dayTotal [overnightEntry] noonDay2 (startOfDay noonDay2) (endOfDay noonDay2) active.
Proof. split_and!; [reflexivity | reflexivity | discriminate]. Qed.

(** A duration entered backwards is added as it is, below zero, where the
    clipped duration is floored at zero. *)
Example backwards_entry_not_floored :
  calculateTotalSeconds [backwardsEntry] noonDay2 noonDay2 active = -3600 ∧
  Spec.dayTotal [backwardsEntry] noonDay2 (startOfDay noonDay2) (endOfDay noonDay2) active = 0.
Proof. split; reflexivity. Qed.

End DashboardProps.

(** * Further properties of the store actions *)

Module ActionProps.
Import Store.

Lemma set_entries_same (s : TimeStore) : set_entries (entries s) s = s.
Proof. by destruct s. Qed.

Lemma stopEntry_closeActive (now : Z) (s : TimeStore) :
  stopEntry now s = set_entries (closeActive now (entries s)) s.
Proof.
  unfold stopEntry, closeActive.
  destruct (list_find TimeEntry.isOpen (entries s)) as [[i e]|]; [done|].
  by rewrite set_entries_same.
Qed.

(** Closing the first open entry lowers the number of open entries by one,
    when there is one. *)
Lemma closeActive_count (now : Z) (l : list TimeEntry.t) :
  length (openEntries (closeActive now l)) = pred (length (openEntries l)).
Proof.
  unfold closeActive.
  destruct (list_find TimeEntry.isOpen l) as [[i e]|] eqn:Hfind.
  - apply StoreProps.find_open_split in Hfind as (l1 & l2 & -> & <- & Hl1 & He).
    rewrite StoreProps.insert_middle, !StoreProps.openEntries_app.
    rewrite (StoreProps.openEntries_closed l1) by done. unfold openEntries.
    rewrite (filter_cons_True _ e) by done.
    by rewrite (filter_cons_False _ (TimeEntry.with_endTime e (Some now)))
      by apply StoreProps.with_endTime_closed.
  - rewrite StoreProps.openEntries_closed; [done|].
    exact (proj1 (list_find_None TimeEntry.isOpen l) Hfind).
Qed.

Lemma closeActive_ids (now : Z) (l : list TimeEntry.t) :
  TimeEntry.id <$> closeActive now l = TimeEntry.id <$> l.
Proof.
  unfold closeActive.
  destruct (list_find TimeEntry.isOpen l) as [[i e]|] eqn:Hfind; [|done].
  apply StoreProps.find_open_split in Hfind as (l1 & l2 & -> & <- & _ & _).
  rewrite StoreProps.insert_middle. by rewrite !fmap_app.
Qed.

(** X1. [stopEntry] closes exactly one open entry when there is one, and
    [startEntry] closes one and opens one: on a store that holds [n >= 1]
    open entries [stopEntry] leaves [n - 1] and [startEntry] leaves [n], so
    [startEntry] never repairs a store that holds several open entries. *)
Theorem open_entries_count (a : StartArgs) (now : Z) (s : TimeStore) :
  length (openEntries (entries (stopEntry now s)))
  = pred (length (openEntries (entries s))) ∧
  length (openEntries (entries (startEntry a s)))
  = S (pred (length (openEntries (entries s)))) ∧
  ((1 ≤ length (openEntries (entries s)))%nat →
   length (openEntries (entries (startEntry a s))) = length (openEntries (entries s))).
Proof.
  assert (Hstart : length (openEntries (entries (startEntry a s)))
                   = S (pred (length (openEntries (entries s))))).
  { unfold startEntry. cbn [set_entries entries].
    rewrite StoreProps.openEntries_app, length_app, closeActive_count.
    unfold openEntries at 2.
    rewrite filter_cons_True by apply StoreProps.newEntry_open. simpl. lia. }
  split_and!.
  - rewrite stopEntry_closeActive. apply closeActive_count.
  - exact Hstart.
  - intros Hone. rewrite Hstart. lia.
Qed.

Lemma open_entries_count_witness :
  length (openEntries (entries (startEntry (mkStart 9000 "u3" work None None None None)
     (addManualEntry (TimeEntry.mk "" 4000 None work None [] None None None) "m1"
        Demo.demoStore)))) = 2%nat.
Proof.
  destruct (open_entries_count (mkStart 9000 "u3" work None None None None) 0
              (addManualEntry (TimeEntry.mk "" 4000 None work None [] None None None) "m1"
                 Demo.demoStore)) as (_ & _ & H).
  rewrite H; [reflexivity | simpl; lia].
Defined.

(** X2. A manual entry without an end, added while an entry is running,
    is left running by the next [stopEntry], which closes the older one. *)
Theorem manual_open_entry_outlives_stop (entry : TimeEntry.t) (uuid : string) (now : Z)
    (s : TimeStore) :
  length (openEntries (entries s)) = 1%nat →
  TimeEntry.endTime entry = None →
  length (openEntries (entries (addManualEntry entry uuid s))) = 2%nat ∧
  openEntries (entries (stopEntry now (addManualEntry entry uuid s)))
  = [with_id entry uuid].
Proof.
  intros Hone Hopen.
  assert (Hnew : TimeEntry.isOpen (with_id entry uuid)) by exact Hopen.
  split.
  - unfold addManualEntry. cbn [set_entries entries].
    rewrite StoreProps.openEntries_app, length_app, Hone. unfold openEntries.
    by rewrite filter_cons_True by done.
  - rewrite stopEntry_closeActive. unfold addManualEntry. cbn [set_entries entries].
    unfold closeActive.
    destruct (list_find TimeEntry.isOpen (entries s)) as [[i e]|] eqn:Hfind.
    + rewrite (list_find_app_l _ _ _ _ _ Hfind).
      pose proof Hfind as (l1 & l2 & Hs & <- & Hl1 & He)%StoreProps.find_open_split.
      rewrite Hs in Hone |- *.
      rewrite <- app_assoc, <- app_comm_cons, StoreProps.insert_middle.
      rewrite StoreProps.openEntries_app in Hone.
      rewrite (StoreProps.openEntries_closed l1) in Hone by done.
      unfold openEntries in Hone. rewrite filter_cons_True in Hone by done.
      simpl in Hone. injection Hone as Hl2. apply nil_length_inv in Hl2.
      rewrite !StoreProps.openEntries_app, (StoreProps.openEntries_closed l1) by done.
      unfold openEntries.
      rewrite filter_cons_False by apply StoreProps.with_endTime_closed.
      rewrite filter_app, Hl2. by rewrite filter_cons_True by done.
    + apply list_find_None, StoreProps.openEntries_closed in Hfind.
      rewrite Hfind in Hone. discriminate.
Qed.

Lemma manual_open_entry_outlives_stop_witness :
  openEntries (entries (stopEntry 9000
     (addManualEntry (TimeEntry.mk "" 4000 None work None [] None None None) "m1"
        Demo.demoStore)))
  = [TimeEntry.mk "m1" 4000 None work None [] None None None].
Proof.
  apply (manual_open_entry_outlives_stop
           (TimeEntry.mk "" 4000 None work None [] None None None) "m1" 9000
           Demo.demoStore); reflexivity.
Defined.

Lemma open_count_fmap (f : TimeEntry.t → TimeEntry.t) (l : list TimeEntry.t) :
  (∀ e, TimeEntry.isOpen (f e) → TimeEntry.isOpen e) →
  (length (openEntries (f <$> l)) ≤ length (openEntries l))%nat.
Proof.
  intros Hf. unfold openEntries. induction l as [|e l IH]; [done|].
  rewrite fmap_cons.
  destruct (decide (TimeEntry.isOpen (f e))) as [Hfe|Hfe].
  - rewrite filter_cons_True by done. rewrite (filter_cons_True _ e) by auto.
    simpl. lia.
  - rewrite filter_cons_False by done.
    destruct (decide (TimeEntry.isOpen e)).
    + rewrite (filter_cons_True _ e) by done. simpl. lia.
    + by rewrite (filter_cons_False _ e) by done.
Qed.

Lemma open_count_filter (P : TimeEntry.t → Prop) `{!∀ e, Decision (P e)}
    (l : list TimeEntry.t) :
  (length (openEntries (filter P l)) ≤ length (openEntries l))%nat.
Proof.
  unfold openEntries. induction l as [|e l IH]; [done|].
  destruct (decide (P e)), (decide (TimeEntry.isOpen e)).
  - rewrite (filter_cons_True P) by done. rewrite !(filter_cons_True _ e) by done.
    simpl. lia.
  - rewrite (filter_cons_True P) by done. by rewrite !(filter_cons_False _ e) by done.
  - rewrite (filter_cons_False P) by done. rewrite (filter_cons_True _ e) by done.
    simpl. lia.
  - rewrite (filter_cons_False P) by done. by rewrite (filter_cons_False _ e) by done.
Qed.

Lemma mergeEntry_open (e : TimeEntry.t) (updates : PartialEntry) :
  u_endTime updates ≠ Some None →
  TimeEntry.isOpen (mergeEntry e updates) → TimeEntry.isOpen e.
Proof.
  unfold TimeEntry.isOpen, mergeEntry. simpl. intros Hu.
  destruct (u_endTime updates) as [[t|]|]; simpl; done.
Qed.

Lemma perform_open_count (act : Action) (s : TimeStore) :
  opensNothing act →
  (length (openEntries (entries s)) ≤ 1)%nat →
  (length (openEntries (entries (perform act s))) ≤ 1)%nat.
Proof.
  intros Hact Hinv. destruct act as [a|now|entry uuid|id u|id| | | | | | ];
    cbn [perform]; try done.
  - rewrite StoreProps.startEntry_open_entries by done. simpl. lia.
  - rewrite stopEntry_closeActive. cbn [set_entries entries].
    rewrite closeActive_count. lia.
  - unfold addManualEntry. cbn [set_entries entries].
    rewrite StoreProps.openEntries_app, length_app. unfold openEntries at 2.
    rewrite filter_cons_False by exact Hact. simpl. lia.
  - unfold updateEntry. cbn [set_entries entries].
    etrans; [apply open_count_fmap | exact Hinv].
    intros e. destruct (decide (TimeEntry.id e = id)); [|done].
    by apply mergeEntry_open.
  - unfold deleteEntry. cbn [set_entries entries].
    etrans; [apply open_count_filter | exact Hinv].
Qed.

(** X3. From any store with at most one open entry, any run of actions
    keeps at most one open entry, as long as no manual entry is added
    without its end and no update writes [endTime: null]. *)
Theorem single_open_invariant (acts : list Action) (s : TimeStore) :
  Forall opensNothing acts →
  (length (openEntries (entries s)) ≤ 1)%nat →
  (length (openEntries (entries (performAll acts s))) ≤ 1)%nat.
Proof.
  intros Hacts. revert s. induction Hacts as [|act acts Hact _ IH]; intros s Hinv.
  - done.
  - cbn [performAll foldl]. apply IH. by apply perform_open_count.
Qed.

Lemma single_open_invariant_witness :
  let acts :=
    [ StartEntry (mkStart 9000 "u3" work None None None None);
      UpdateEntry "u3" (mkPartial None None None None None None None (Some (Some 3300)) None);
      AddManualEntry (TimeEntry.mk "" 100 (Some 200) break None [] None None None) "m1";
      DeleteEntry "e1";
      StartEntry (mkStart 9500 "u4" break None None None (Some true)) ] in
  (length (openEntries (entries (performAll acts Demo.demoStore))) ≤ 1)%nat.
Proof.
  intros acts. apply single_open_invariant.
  - repeat constructor; discriminate.
  - simpl. lia.
Defined.

Lemma fmap_id_on {A} (f : A → A) (l : list A) :
  Forall (λ x, f x = x) l → f <$> l = l.
Proof. induction 1 as [|x l Hx _ IH]; [done|]. by rewrite fmap_cons, Hx, IH. Qed.

Lemma mergeEntry_noUpdates (e : TimeEntry.t) : mergeEntry e noUpdates = e.
Proof. by destruct e. Qed.

(** X4. [updateEntry] with an id that no entry carries, or with an update
    that has no key, returns the store as it was. *)
Theorem updateEntry_noop (id : string) (updates : PartialEntry) (s : TimeStore) :
  (Forall (λ e, TimeEntry.id e ≠ id) (entries s) → updateEntry id updates s = s) ∧
  updateEntry id noUpdates s = s.
Proof.
  split.
  - intros Hids. unfold updateEntry. rewrite fmap_id_on; [apply set_entries_same|].
    eapply Forall_impl; [exact Hids|]. intros e He. simpl. by rewrite decide_False.
  - unfold updateEntry. rewrite fmap_id_on; [apply set_entries_same|].
    apply Forall_forall. intros e _. simpl.
    destruct (decide _); [apply mergeEntry_noUpdates | done].
Qed.

Lemma updateEntry_noop_witness :
  updateEntry "nobody"
    (mkPartial None None (Some None) None None None None None None) Demo.demoStore
  = Demo.demoStore.
Proof.
  apply (proj1 (updateEntry_noop "nobody"
                  (mkPartial None None (Some None) None None None None None None)
                  Demo.demoStore)).
  repeat constructor; discriminate.
Defined.

Lemma mergeEntry_mergeUpdates (e : TimeEntry.t) (u1 u2 : PartialEntry) :
  mergeEntry (mergeEntry e u1) u2 = mergeEntry e (mergeUpdates u1 u2).
Proof.
  unfold mergeEntry, mergeUpdates. simpl.
  destruct (u_id u2), (u_startTime u2), (u_endTime u2), (u_type u2), (u_projectId u2),
    (u_tagIds u2), (u_notes u2), (u_targetDuration u2), (u_isWorkingBreak u2); reflexivity.
Qed.

(** X5. Two updates of the same id in a row are one update with the keys
    of both, the later winning, provided the first does not rewrite [id];
    the entries keep their number and their order, and an entry with
    another id is returned as it was. *)
Theorem updateEntry_twice (id : string) (u1 u2 : PartialEntry) (s : TimeStore) :
  u_id u1 = None →
  updateEntry id u2 (updateEntry id u1 s) = updateEntry id (mergeUpdates u1 u2) s ∧
  length (entries (updateEntry id u1 s)) = length (entries s) ∧
  (∀ i e, entries s !! i = Some e → TimeEntry.id e ≠ id →
          entries (updateEntry id u1 s) !! i = Some e) ∧
  (∀ i e, entries s !! i = Some e → TimeEntry.id e = id →
          entries (updateEntry id u1 s) !! i = Some (mergeEntry e u1)).
Proof.
  intros Hid. split_and!.
  - unfold updateEntry, set_entries. cbn [entries projects tags]. f_equal.
    rewrite <- list_fmap_compose. apply list_fmap_ext. intros _ e _. simpl.
    destruct (decide (TimeEntry.id e = id)) as [He|He].
    + assert (TimeEntry.id (mergeEntry e u1) = id) as Hm
        by (unfold mergeEntry; simpl; by rewrite Hid).
      rewrite decide_True by done. apply mergeEntry_mergeUpdates.
    + by rewrite decide_False.
  - unfold updateEntry. cbn [set_entries entries]. apply length_fmap.
  - intros i e Hi He. unfold updateEntry. cbn [set_entries entries].
    rewrite list_lookup_fmap, Hi. simpl. by rewrite decide_False.
  - intros i e Hi He. unfold updateEntry. cbn [set_entries entries].
    rewrite list_lookup_fmap, Hi. simpl. by rewrite decide_True.
Qed.

Lemma updateEntry_twice_witness :
  updateEntry "e2" (mkPartial None None None None None None None (Some (Some 600)) None)
    (updateEntry "e2" (mkPartial None None None (Some work) None None None (Some None) None)
       Demo.demoStore)
  = updateEntry "e2" (mkPartial None None None (Some work) None None None (Some (Some 600)) None)
      Demo.demoStore.
Proof.
  apply (updateEntry_twice "e2"
           (mkPartial None None None (Some work) None None None (Some None) None)
           (mkPartial None None None None None None None (Some (Some 600)) None)
           Demo.demoStore eq_refl).
Defined.

Lemma filter_all {A} (P : A → Prop) `{!∀ x, Decision (P x)} (l : list A) :
  Forall P l → filter P l = l.
Proof.
  induction 1 as [|x l Hx _ IH]; [done|]. by rewrite filter_cons_True, IH.
Qed.

(** X6. [deleteEntry] removes every entry with the id and keeps the others
    in their order; an id that no entry carries leaves the store as it was,
    and so does deleting the same id again. *)
Theorem deleteEntry_spec (id : string) (s : TimeStore) :
  (∀ e, e ∈ entries (deleteEntry id s) ↔ e ∈ entries s ∧ TimeEntry.id e ≠ id) ∧
  entries (deleteEntry id s) `sublist_of` entries s ∧
  (Forall (λ e, TimeEntry.id e ≠ id) (entries s) → deleteEntry id s = s) ∧
  deleteEntry id (deleteEntry id s) = deleteEntry id s.
Proof.
  split_and!.
  - intros e. unfold deleteEntry. cbn [set_entries entries].
    rewrite list_elem_of_filter. tauto.
  - apply sublist_filter.
  - intros Hids. unfold deleteEntry. rewrite filter_all by done. apply set_entries_same.
  - unfold deleteEntry, set_entries. cbn [entries projects tags]. f_equal.
    apply filter_all, Forall_forall. by intros e [He _]%list_elem_of_filter.
Qed.

Lemma deleteEntry_spec_witness :
  deleteEntry "nobody" Demo.demoStore = Demo.demoStore.
Proof.
  destruct (deleteEntry_spec "nobody" Demo.demoStore) as (_ & _ & H & _).
  apply H. repeat constructor; discriminate.
Defined.

(** X7. Starting an entry under a fresh id and deleting it again is the
    same as [stopEntry] at the time of the start: the entry that was
    running before stays closed. *)
Theorem start_then_delete (a : StartArgs) (s : TimeStore) :
  Forall (λ e, TimeEntry.id e ≠ a_uuid a) (entries s) →
  deleteEntry (a_uuid a) (startEntry a s) = stopEntry (a_now a) s.
Proof.
  intros Hfresh. rewrite stopEntry_closeActive.
  unfold deleteEntry, startEntry, set_entries. cbn [entries projects tags]. f_equal.
  rewrite filter_app, filter_cons_False, filter_nil, app_nil_r
    by (intros H; by apply H).
  apply filter_all.
  apply Forall_forall. intros e He Heq.
  assert (Hin : a_uuid a ∈ TimeEntry.id <$> entries s).
  { rewrite <- (closeActive_ids (a_now a)). apply list_elem_of_fmap. by exists e. }
  apply list_elem_of_fmap in Hin as (e' & Heq' & Hin').
  rewrite Forall_forall in Hfresh. by apply (Hfresh e' Hin').
Qed.

Lemma start_then_delete_witness :
  entries (deleteEntry "u7" (startEntry (mkStart 8000 "u7" work None None None None)
                               Demo.demoStore))
  = [ TimeEntry.mk "e1" 1000 (Some 2000) work None [] None None None;
      TimeEntry.mk "e2" 3000 (Some 8000) break (Some "p1") [] None (Some 300) (Some false) ].
Proof.
  change "u7" with (a_uuid (mkStart 8000 "u7" work None None None None)) at 1.
  rewrite (start_then_delete (mkStart 8000 "u7" work None None None None) Demo.demoStore).
  - reflexivity.
  - repeat constructor; discriminate.
Defined.

Lemma findProject_app (l1 l2 : list Project.t) (k : string) :
  Reports.findProject (l1 ++ l2) k
  = match Reports.findProject l1 k with
    | Some p => Some p
    | None => Reports.findProject l2 k
    end.
Proof.
  induction l1 as [|p l1 IH]; [done|].
  rewrite <- app_comm_cons, !ReportsProps.findProject_cons.
  destruct (decide (Project.id p = k)); [done | apply IH].
Qed.

(** X8. After [addProject] every id that was already found is found as
    before, and the new id is found when no older project carries it;
    deleting the new id again gives the store back. *)
Theorem addProject_lookup (project : Project.t) (uuid : string) (s : TimeStore) :
  let added := Project.mk uuid (Project.name project) (Project.color project)
                 (Project.isArchived project) in
  (∀ k, Reports.findProject (projects (addProject project uuid s)) k
        = match Reports.findProject (projects s) k with
          | Some p => Some p
          | None => if decide (k = uuid) then Some added else None
          end) ∧
  (Forall (λ p, Project.id p ≠ uuid) (projects s) →
     deleteProject uuid (addProject project uuid s) = s).
Proof.
  intros added. split.
  - intros k. unfold addProject. cbn [set_projects projects].
    rewrite findProject_app, ReportsProps.findProject_cons. cbn [Project.id].
    destruct (Reports.findProject (projects s) k); [done|].
    destruct (decide (uuid = k)) as [->|Hne].
    + by rewrite decide_True.
    + by rewrite decide_False.
  - intros Hfresh. unfold deleteProject, addProject, set_projects.
    cbn [entries projects tags].
    rewrite filter_app, filter_cons_False, filter_nil, app_nil_r
      by (intros H; by apply H).
    rewrite filter_all by done. by destruct s.
Qed.

Lemma addProject_lookup_witness :
  deleteProject "p2" (addProject (Project.mk "" "Beta" "#0f0" None) "p2" Demo.demoStore)
  = Demo.demoStore.
Proof.
  destruct (addProject_lookup (Project.mk "" "Beta" "#0f0" None) "p2" Demo.demoStore)
    as [_ H].
  apply H. repeat constructor; discriminate.
Defined.

(** X9. [updateProject] that does not rewrite [id] changes what is found
    under that id to the merged project and leaves every other lookup, and
    the entries, as they were. *)
Theorem updateProject_lookup (id : string) (updates : PartialProject) (s : TimeStore) :
  up_id updates = None →
  entries (updateProject id updates s) = entries s ∧
  ∀ k, Reports.findProject (projects (updateProject id updates s)) k
       = (λ p, if decide (k = id) then mergeProject p updates else p)
           <$> Reports.findProject (projects s) k.
Proof.
  intros Hid. split; [done|]. intros k.
  unfold updateProject. cbn [set_projects projects].
  induction (projects s) as [|p l IH]; [done|].
  rewrite fmap_cons, !ReportsProps.findProject_cons, IH.
  destruct (decide (Project.id p = id)) as [Hp|Hp].
  - assert (Project.id (mergeProject p updates) = id) as ->
      by (unfold mergeProject; simpl; by rewrite Hid).
    rewrite Hp. destruct (decide (id = k)) as [->|Hne]; [|done].
    simpl. by rewrite decide_True.
  - destruct (decide (Project.id p = k)) as [Hk|Hk]; [|done].
    simpl. rewrite decide_False by congruence. done.
Qed.

Lemma updateProject_lookup_witness :
  Reports.findProject
    (projects (updateProject "p1" (mkPartialProject None (Some "Gamma") None None)
                 Demo.demoStore)) "p1"
  = Some (Project.mk "p1" "Gamma" "#f00" None).
Proof.
  rewrite (proj2 (updateProject_lookup "p1" (mkPartialProject None (Some "Gamma") None None)
                    Demo.demoStore eq_refl)).
  reflexivity.
Defined.

End ActionProps.

(** * Further properties of the report page *)

Module AggregationProps.
Import DateFns Reports.

Lemma startOfDay_shift (t k : Z) : startOfDay (t + k * msPerDay) = startOfDay t + k * msPerDay.
Proof. unfold startOfDay. rewrite Z_mod_plus_full. lia. Qed.

Lemma startOfDay_idem (t : Z) : startOfDay (startOfDay t) = startOfDay t.
Proof. unfold startOfDay, msPerDay. Z.div_mod_to_equations. lia. Qed.

Lemma startOfDay_le (t : Z) : startOfDay t ≤ t ≤ endOfDay t.
Proof. unfold endOfDay, startOfDay, msPerDay. Z.div_mod_to_equations. lia. Qed.

Lemma startOfWeek_eq (t : Z) :
  startOfWeek t 1 = startOfDay t - ((getDay t + 6) `mod` 7) * msPerDay.
Proof.
  unfold startOfWeek.
  replace (t - ((if getDay t <? 1 then 7 else 0) + getDay t - 1) * msPerDay)
    with (t + (- ((if getDay t <? 1 then 7 else 0) + getDay t - 1)) * msPerDay) by lia.
  rewrite startOfDay_shift.
  assert (0 ≤ getDay t < 7) by (unfold getDay; apply Z.mod_pos_bound; lia).
  generalize dependent (getDay t). generalize (startOfDay t). intros d g Hg.
  unfold msPerDay. destruct (Z.ltb_spec g 1); Z.div_mod_to_equations; lia.
Qed.

Lemma endOfWeek_eq (t : Z) : endOfWeek t 1 = startOfWeek t 1 + 7 * msPerDay - 1.
Proof.
  rewrite startOfWeek_eq. unfold endOfWeek, endOfDay. rewrite startOfDay_shift.
  assert (0 ≤ getDay t < 7) by (unfold getDay; apply Z.mod_pos_bound; lia).
  generalize dependent (getDay t). generalize (startOfDay t). intros d g Hg.
  unfold msPerDay. destruct (Z.ltb_spec g 1); Z.div_mod_to_equations; lia.
Qed.

Lemma days_count (from first last' n : Z) :
  0 ≤ n → startOfDay from = first → last' = first + n * msPerDay + (msPerDay - 1) →
  length (eachDayOfInterval (mkInterval from last')) = Z.to_nat (n + 1).
Proof.
  intros Hn Hfirst ->. unfold eachDayOfInterval. cbn [start end_].
  rewrite length_fmap, length_seq, Hfirst. f_equal. unfold msPerDay.
  Z.div_mod_to_equations. lia.
Qed.

Lemma getDay_startOfWeek (t : Z) : getDay (startOfWeek t 1) = 1.
Proof.
  rewrite startOfWeek_eq. unfold getDay, startOfDay, msPerDay.
  Z.div_mod_to_equations. lia.
Qed.

(** X10. For the periods day, week and fortnight the range computed from
    the clock contains the clock; the bar chart then has 1, 7 and 15 days
    (a fortnight reaches back 14 days from today, today included); the week
    starts on a Monday; and every running entry that started in the past
    passes the range filter. *)
Theorem range_of_period (startOfMonth endOfMonth : Z → Z) (period : Period) (now : Z) :
  period ≠ Month →
  let r := range startOfMonth endOfMonth period now in
  isWithinInterval now r = true ∧
  length (eachDayOfInterval r)
  = match period with Day => 1 | Week => 7 | Fortnight => 15 | Month => 0 end%nat ∧
  (period = Week → getDay (start r) = 1) ∧
  (∀ e, TimeEntry.endTime e = None → TimeEntry.startTime e ≤ now →
        inRange r now e = true).
Proof.
  intros Hperiod r.
  assert (Hnow : start r ≤ now ≤ end_ r).
  { subst r. pose proof (startOfDay_le now) as Hd.
    destruct period; cbn [range start end_]; try done.
    - rewrite endOfWeek_eq, startOfWeek_eq.
      assert (0 ≤ (getDay now + 6) `mod` 7 < 7) by (apply Z.mod_pos_bound; lia).
      unfold endOfDay, msPerDay in *. lia.
    - unfold subDays, msPerDay. lia. }
  split_and!.
  - unfold isWithinInterval. apply andb_true_iff. rewrite !Z.leb_le. lia.
  - subst r. destruct period; cbn [range]; try done.
    + by rewrite (days_count _ (startOfDay now) _ 0)
        by (done || apply startOfDay_idem || (unfold endOfDay; lia)).
    + rewrite (days_count _ (startOfWeek now 1) _ 6); [done | lia | |].
      * rewrite startOfWeek_eq.
        replace (startOfDay now - (getDay now + 6) `mod` 7 * msPerDay)
          with (startOfDay now + (- ((getDay now + 6) `mod` 7)) * msPerDay) by lia.
        rewrite <- startOfDay_shift. apply startOfDay_idem.
      * rewrite endOfWeek_eq. lia.
    + rewrite (days_count _ (startOfDay now - 14 * msPerDay) _ 14); [done | lia | |].
      * unfold subDays. replace (now - 14 * msPerDay) with (now + (-14) * msPerDay) by lia.
        rewrite startOfDay_shift. lia.
      * unfold endOfDay. lia.
  - intros ->. subst r. cbn [range start end_]. apply getDay_startOfWeek.
  - intros e Hopen Hstart. apply ReportsProps.inRange_spec.
    + rewrite Hopen. discriminate.
    + rewrite Hopen. lia.
Qed.

Lemma range_of_period_witness :
  length (eachDayOfInterval (range id id Fortnight Demo.noonDay2)) = 15%nat ∧
  inRange (range id id Week Demo.noonDay2) Demo.noonDay2 Demo.runningEntry = true.
Proof.
  split.
  - apply (range_of_period id id Fortnight Demo.noonDay2). discriminate.
  - apply (range_of_period id id Week Demo.noonDay2); [discriminate | reflexivity |].
    by vm_compute.
Defined.

Lemma sumQ_app (l1 l2 : list Q) : (sumQ (l1 ++ l2) == sumQ l1 + sumQ l2)%Q.
Proof.
  induction l1 as [|q l1 IH].
  - change (sumQ l2 == 0 + sumQ l2)%Q. ring.
  - rewrite <- app_comm_cons, !ReportsProps.sumQ_cons, IH. ring.
Qed.

Lemma workSeconds_app (l1 l2 : list TimeEntry.t) (now day : Z) :
  (workSeconds (l1 ++ l2) now day == workSeconds l1 now day + workSeconds l2 now day)%Q.
Proof.
  rewrite !ReportsProps.workSeconds_sum. unfold dayEntries.
  rewrite !filter_app, fmap_app. apply sumQ_app.
Qed.

(** X11. The seconds of a day bar are the sum, over the entries, of what
    each entry gives alone: the bar of a list is the bar of its parts added
    up, and the range filter works entry by entry. *)
Theorem bar_additive (entries : list TimeEntry.t) (range : Interval) (now day : Z) :
  (workSeconds (filteredEntries entries range now) now day
   == sumQ ((λ e, workSeconds (filteredEntries [e] range now) now day) <$> entries))%Q.
Proof.
  induction entries as [|e l IH].
  - reflexivity.
  - change (e :: l) with ([e] ++ l). unfold filteredEntries at 1.
    rewrite filter_app. fold (filteredEntries [e] range now) (filteredEntries l range now).
    rewrite workSeconds_app, IH. rewrite fmap_app, sumQ_app.
    change (sumQ ((λ e0, workSeconds (filteredEntries [e0] range now) now day) <$> [e]))
      with (workSeconds (filteredEntries [e] range now) now day + 0)%Q.
    ring.
Qed.






Lemma days_apart (d d' : Z) :
  startOfDay d' ≠ startOfDay d →
  endOfDay d' < startOfDay d ∨ endOfDay d < startOfDay d'.
Proof. unfold endOfDay, startOfDay, msPerDay. Z.div_mod_to_equations. lia. Qed.

(** X14. A closed work entry that lies within one day and passes the
    range filter gives that day's bar its full duration and gives nothing
    to the bar of any other day. *)
Theorem entry_within_one_day (e : TimeEntry.t) (t : Z) (range : Interval) (now day : Z) :
  TimeEntry.type e = work →
  TimeEntry.endTime e = Some t → t ≠ 0 →
  startOfDay day ≤ TimeEntry.startTime e ≤ t → t ≤ endOfDay day →
  inRange range now e = true →
  (workSeconds (filteredEntries [e] range now) now day
   == inject_Z (t - TimeEntry.startTime e) / 1000)%Q ∧
  ∀ other, startOfDay other ≠ startOfDay day →
    (workSeconds (filteredEntries [e] range now) now other == 0)%Q.
Proof.
  intros Hwork Hend Ht Hstart Hlast Hin.
  rewrite ReportsProps.filteredEntries_singleton, Hin.
  assert (Hnz : TimeEntry.endTime e ≠ Some 0) by (rewrite Hend; congruence).
  split.
  - rewrite ReportsProps.workSeconds_singleton, ReportsProps.overlapSeconds_clipped by done.
    unfold Spec.clipped, Spec.effective_end. rewrite Hend.
    replace (Z.max 0 _) with (t - TimeEntry.startTime e) by lia. reflexivity.
  - intros other Hother.
    rewrite ReportsProps.workSeconds_singleton, ReportsProps.overlapSeconds_clipped by done.
    unfold Spec.clipped, Spec.effective_end. rewrite Hend.
    destruct (days_apart day other Hother);
      (replace (Z.max 0 _) with 0 by lia); reflexivity.
Qed.

Lemma entry_within_one_day_witness :
  (workSeconds (filteredEntries [Demo.tenToHalfPast] Demo.twoDays Demo.elevenOClock)
     Demo.elevenOClock Demo.day1 == 30 * 60)%Q ∧
  (workSeconds (filteredEntries [Demo.tenToHalfPast] Demo.twoDays Demo.elevenOClock)
     Demo.elevenOClock Demo.day2 == 0)%Q.
Proof.
  destruct (entry_within_one_day Demo.tenToHalfPast (Demo.day1 + 37800000) Demo.twoDays
              Demo.elevenOClock Demo.day1) as [H1 H2];
    [reflexivity | reflexivity | discriminate | by vm_compute | by vm_compute
    | reflexivity |].
  split.
  - rewrite H1. reflexivity.
  - apply H2. discriminate.
Defined.

(** X15. A closed work entry that starts on one day, ends on the next and
    passes the range filter gives the first day's bar the time up to
    23:59:59.999 and the second day's bar the time from midnight: the two
    bars together hold its duration less one millisecond. *)
Theorem entry_across_midnight (e : TimeEntry.t) (t : Z) (range : Interval) (now : Z) :
  TimeEntry.type e = work →
  TimeEntry.endTime e = Some t → t ≠ 0 →
  startOfDay t = startOfDay (TimeEntry.startTime e) + msPerDay →
  inRange range now e = true →
  let first := workSeconds (filteredEntries [e] range now) now (TimeEntry.startTime e) in
  let second := workSeconds (filteredEntries [e] range now) now t in
  (first == inject_Z (endOfDay (TimeEntry.startTime e) - TimeEntry.startTime e) / 1000)%Q ∧
  (second == inject_Z (t - startOfDay t) / 1000)%Q ∧
  (first + second == inject_Z (t - TimeEntry.startTime e - 1) / 1000)%Q.
Proof.
  intros Hwork Hend Ht Hnext Hin first second.
  assert (Hnz : TimeEntry.endTime e ≠ Some 0) by (rewrite Hend; congruence).
  pose proof (startOfDay_le (TimeEntry.startTime e)) as Hs.
  pose proof (startOfDay_le t) as Hte.
  assert (H1 : (first == inject_Z (endOfDay (TimeEntry.startTime e) - TimeEntry.startTime e)
                         / 1000)%Q).
  { subst first. rewrite ReportsProps.filteredEntries_singleton, Hin.
    rewrite ReportsProps.workSeconds_singleton, ReportsProps.overlapSeconds_clipped by done.
    unfold Spec.clipped, Spec.effective_end. rewrite Hend.
    replace (Z.max 0 _) with (endOfDay (TimeEntry.startTime e) - TimeEntry.startTime e);
      [reflexivity|].
    unfold endOfDay in *. unfold msPerDay in *. lia. }
  assert (H2 : (second == inject_Z (t - startOfDay t) / 1000)%Q).
  { subst second. rewrite ReportsProps.filteredEntries_singleton, Hin.
    rewrite ReportsProps.workSeconds_singleton, ReportsProps.overlapSeconds_clipped by done.
    unfold Spec.clipped, Spec.effective_end. rewrite Hend.
    replace (Z.max 0 _) with (t - startOfDay t); [reflexivity|].
    unfold endOfDay in *. unfold msPerDay in *. lia. }
  split_and!; [done | done |].
  rewrite H1, H2. unfold endOfDay. rewrite Hnext. unfold msPerDay.
  unfold Qeq, Qdiv, Qplus, Qmult, Qinv, inject_Z. simpl. lia.
Qed.

Lemma entry_across_midnight_witness :
  (workSeconds (filteredEntries [Demo.midnightEntry] Demo.twoDays Demo.noonDay2)
     Demo.noonDay2 (Demo.day1 + 84600000)
   + workSeconds (filteredEntries [Demo.midnightEntry] Demo.twoDays Demo.noonDay2)
       Demo.noonDay2 (Demo.day2 + 1800000)
   == 3599999 # 1000)%Q.
Proof.
  destruct (entry_across_midnight Demo.midnightEntry (Demo.day2 + 1800000) Demo.twoDays
              Demo.noonDay2) as (_ & _ & H);
    [reflexivity | reflexivity | discriminate | reflexivity | reflexivity |].
  rewrite H. reflexivity.
Defined.

End AggregationProps.

(** * Further properties of the timer page *)

Module TimerProps.
Import DateFns Dashboard.

Lemma string_length_app (s1 s2 : string) :
  String.length (s1 +:+ s2) = (String.length s1 + String.length s2)%nat.
Proof.
  induction s1 as [|c s1 IH]; [done|].
  change (String c s1 +:+ s2) with (String c (s1 +:+ s2)).
  cbn [String.length]. by rewrite IH.
Qed.

Lemma pad2_length (n : Z) : 0 ≤ n < 100 → String.length (pad2 n) = 2%nat.
Proof.
  intros Hn.
  assert (Hall : forallb (λ k, Nat.eqb (String.length (pad2 (Z.of_nat k))) 2) (seq 0 100)
                 = true) by (vm_compute; reflexivity).
  rewrite forallb_forall in Hall.
  specialize (Hall (Z.to_nat n)). rewrite Z2Nat.id in Hall by lia.
  apply Nat.eqb_eq, Hall, in_seq. lia.
Qed.

(** X16. For a duration of zero or more seconds [formatDuration] splits it
    into hours, minutes below 60 and seconds below 60 that add up to it;
    below 100 hours the text is eight characters, two per field. *)
Theorem formatDuration_parts (seconds : Z) :
  0 ≤ seconds →
  let '(h, m, s) := durationParts seconds in
  h * 3600 + m * 60 + s = seconds ∧ 0 ≤ h ∧ 0 ≤ m < 60 ∧ 0 ≤ s < 60 ∧
  formatDuration seconds = pad2 h +:+ ":" +:+ pad2 m +:+ ":" +:+ pad2 s ∧
  (seconds < 360000 → String.length (formatDuration seconds) = 8%nat).
Proof.
  intros Hpos. unfold formatDuration, durationParts.
  rewrite !Z.rem_mod_nonneg by lia.
  assert (Hparts : seconds `div` 3600 * 3600 + (seconds `mod` 3600) `div` 60 * 60
                   + seconds `mod` 60 = seconds ∧
                   0 ≤ seconds `div` 3600 ∧ 0 ≤ (seconds `mod` 3600) `div` 60 < 60 ∧
                   0 ≤ seconds `mod` 60 < 60)
    by (Z.div_mod_to_equations; lia).
  destruct Hparts as (Hsum & Hh & Hm & Hs).
  split_and!; try done; try lia.
  intros Hlt. rewrite !string_length_app, !pad2_length; [done | lia | lia |].
  Z.div_mod_to_equations. lia.
Qed.

Lemma formatDuration_parts_witness :
  formatDuration 3725 = "01:02:05" ∧ String.length (formatDuration 3725) = 8%nat.
Proof.
  pose proof (formatDuration_parts 3725 ltac:(lia)) as H.
  cbv beta iota zeta delta [durationParts] in H.
  destruct H as (_ & _ & _ & _ & Hfmt & Hlen). split.
  - rewrite Hfmt. by vm_compute.
  - apply Hlen. lia.
Defined.

(** X17. Saving an entry that has no id adds nothing unless it has a
    start other than 0 and a type; when it does, exactly one entry is
    appended under the fresh id, without [targetDuration] and without
    [isWorkingBreak], whatever the editor passed for them: a break entered
    by hand is counted as rest, never as active time. *)
Theorem handleSaveEntry_new (entry : Store.PartialEntry) (uuid : string)
    (s : Store.TimeStore) :
  truthyStr (Store.u_id entry) = None →
  ((Store.u_startTime entry = None ∨ Store.u_startTime entry = Some 0
    ∨ Store.u_type entry = None) →
   handleSaveEntry entry uuid s = s) ∧
  (∀ startTime type,
     Store.u_startTime entry = Some startTime → startTime ≠ 0 →
     Store.u_type entry = Some type →
     ∃ e, Store.entries (handleSaveEntry entry uuid s) = Store.entries s ++ [e] ∧
          Store.projects (handleSaveEntry entry uuid s) = Store.projects s ∧
          Store.tags (handleSaveEntry entry uuid s) = Store.tags s ∧
          TimeEntry.id e = uuid ∧ TimeEntry.startTime e = startTime ∧
          TimeEntry.type e = type ∧
          TimeEntry.targetDuration e = None ∧ TimeEntry.isWorkingBreak e = None ∧
          (inCategory active e = true ↔ type = work) ∧
          (inCategory rest e = true ↔ type = break)).
Proof.
  intros Hid. unfold handleSaveEntry. rewrite Hid. split.
  - intros [->|[->|Hty]]; [done | | ].
    + by destruct (Store.u_type entry).
    + rewrite Hty. by destruct (Store.u_startTime entry).
  - intros startTime type -> Hnz ->.
    destruct (Z.eqb_spec startTime 0) as [?|_]; [done|].
    eexists. split_and!; try reflexivity.
    + unfold inCategory. cbn [TimeEntry.type TimeEntry.isWorkingBreak Store.with_id truthyBool].
      destruct type; simpl; split; done.
    + unfold inCategory. cbn [TimeEntry.type TimeEntry.isWorkingBreak Store.with_id truthyBool].
      destruct type; simpl; split; done.
Qed.

Lemma handleSaveEntry_new_witness :
  ∃ e,
    Store.entries
      (handleSaveEntry
         (Store.mkPartial None (Some 5000) (Some (Some 6000)) (Some break) None None None
            (Some (Some 600)) (Some (Some true)))
         "m7" Demo.demoStore)
    = Store.entries Demo.demoStore ++ [e] ∧
    TimeEntry.id e = "m7" ∧ TimeEntry.isWorkingBreak e = None ∧
    inCategory rest e = true.
Proof.
  destruct (handleSaveEntry_new
              (Store.mkPartial None (Some 5000) (Some (Some 6000)) (Some break) None None None
                 (Some (Some 600)) (Some (Some true)))
              "m7" Demo.demoStore eq_refl) as [_ H].
  destruct (H 5000 break eq_refl ltac:(discriminate) eq_refl)
    as (e & He & _ & _ & Hid & _ & _ & _ & Hwb & _ & Hrest).
  exists e. split_and!; [exact He | exact Hid | exact Hwb | by apply Hrest].
Defined.

Lemma activeEntry_closed (l : list TimeEntry.t) :
  Store.openEntries l = [] → activeEntry l = None.
Proof.
  intros H%StoreProps.openEntries_nil_closed. unfold activeEntry.
  by rewrite (proj2 (list_find_None TimeEntry.isOpen l) H).
Qed.

(** X18. On a store with at most one open entry the timer follows the
    actions: after [startEntry] the active entry is the new one, the
    elapsed seconds count from its start and the remaining seconds from its
    target, never below zero; after [stopEntry] there is no active entry
    and the elapsed time reads 0. *)
Theorem timer_follows_actions (a : Store.StartArgs) (now : Z) (s : Store.TimeStore) :
  (length (Store.openEntries (Store.entries s)) ≤ 1)%nat →
  let started := Store.entries (Store.startEntry a s) in
  let stopped := Store.entries (Store.stopEntry now s) in
  activeEntry started = Some (Store.newEntry a) ∧
  currentDuration started now = (now - Store.a_now a) `quot` 1000 ∧
  (∀ target, TimeEntry.targetDuration (Store.newEntry a) = Some target → target ≠ 0 →
     remaining started now = Some (Z.max 0 (target - (now - Store.a_now a) `quot` 1000))) ∧
  activeEntry stopped = None ∧
  currentDuration stopped now = 0.
Proof.
  intros Hinv started stopped.
  assert (Hactive : activeEntry started = Some (Store.newEntry a)).
  { subst started. unfold Store.startEntry, activeEntry. cbn [Store.set_entries Store.entries].
    pose proof (ActionProps.closeActive_count (Store.a_now a) (Store.entries s)) as Hc.
    assert (Hnil : Store.openEntries (Store.closeActive (Store.a_now a) (Store.entries s)) = [])
      by (apply nil_length_inv; lia).
    apply StoreProps.openEntries_nil_closed in Hnil.
    change [Store.newEntry a] with (Store.newEntry a :: []).
    by rewrite StoreProps.find_open_at by (done || apply StoreProps.newEntry_open). }
  assert (Hidle : activeEntry stopped = None).
  { subst stopped. rewrite ActionProps.stopEntry_closeActive.
    cbn [Store.set_entries Store.entries]. apply activeEntry_closed, nil_length_inv.
    rewrite ActionProps.closeActive_count. lia. }
  split_and!; try done.
  - unfold currentDuration. by rewrite Hactive.
  - intros target Htarget Hnz. unfold remaining, currentDuration.
    rewrite Hactive, Htarget. cbn [truthyNum from_option].
    destruct (Z.eqb_spec target 0); done.
  - unfold currentDuration. by rewrite Hidle.
Qed.

Lemma timer_follows_actions_witness :
  remaining (Store.entries (Store.startEntry (Store.mkStart 8000 "u7" work None None None None)
                              Demo.demoStore)) 68000
  = Some 1440.
Proof.
  destruct (timer_follows_actions (Store.mkStart 8000 "u7" work None None None None) 68000
              Demo.demoStore) as (_ & _ & H & _).
  - simpl. lia.
  - rewrite (H 1500 eq_refl); [reflexivity | discriminate].
Defined.

End TimerProps.

(** * Properties of the schedule rows *)

Module TimelineProps.
Import DateFns Timeline.

Lemma same_day_iff (day t : Z) :
  startOfDay day ≤ t ∧ t < endOfDay day ↔ startOfDay t = startOfDay day ∧ t ≠ endOfDay day.
Proof. unfold endOfDay, startOfDay, msPerDay. Z.div_mod_to_equations. lia. Qed.

(** X19. A row of the schedule holds the entries that start on its day,
    except one that starts in the day's last millisecond, which is on no
    row at all; no entry is on the rows of two different days. *)
Theorem timeline_rows (entries : list TimeEntry.t) (e : TimeEntry.t) (day : Z) :
  (e ∈ dayEntries entries day ↔
   e ∈ entries ∧ startOfDay (TimeEntry.startTime e) = startOfDay day ∧
   TimeEntry.startTime e ≠ endOfDay day) ∧
  (TimeEntry.startTime e = endOfDay (TimeEntry.startTime e) →
   ∀ other, e ∉ dayEntries entries other) ∧
  (∀ other, startOfDay other ≠ startOfDay day →
            e ∈ dayEntries entries day → e ∉ dayEntries entries other).
Proof.
  assert (Hrow : ∀ d, e ∈ dayEntries entries d ↔
            e ∈ entries ∧ startOfDay (TimeEntry.startTime e) = startOfDay d ∧
            TimeEntry.startTime e ≠ endOfDay d).
  { intros d. unfold dayEntries.
    rewrite list_elem_of_filter, Is_true_true, andb_true_iff, Z.leb_le, Z.ltb_lt.
    rewrite same_day_iff. tauto. }
  split_and!.
  - apply Hrow.
  - intros Hlast other (_ & Hsame & Hne)%Hrow.
    apply Hne. rewrite Hlast. unfold endOfDay. by rewrite Hsame.
  - intros other Hother (_ & Hsame & _)%Hrow (_ & Hsame' & _)%Hrow. congruence.
Qed.

Lemma timeline_rows_witness :
  Demo.midnightEntry ∈ dayEntries [Demo.midnightEntry] Demo.day1 ∧
  Demo.midnightEntry ∉ dayEntries [Demo.midnightEntry] Demo.day2.
Proof.
  destruct (timeline_rows [Demo.midnightEntry] Demo.midnightEntry Demo.day1)
    as (Hrow & _ & Hother).
  assert (Hin : Demo.midnightEntry ∈ dayEntries [Demo.midnightEntry] Demo.day1).
  { apply Hrow. split_and!; [left | reflexivity | discriminate]. }
  split; [exact Hin|]. apply Hother; [discriminate | exact Hin].
Defined.

Lemma percent_lt (n : Z) : n < 1440 → (inject_Z n / 1440 * 100 < 100)%Q.
Proof. intros Hn. unfold Qlt. simpl. lia. Qed.

Lemma percent_nonneg (n : Z) : 0 ≤ n → (0 <= inject_Z n / 1440 * 100)%Q.
Proof. intros Hn. unfold Qle. simpl. lia. Qed.

Lemma startMinutes_bound (e : TimeEntry.t) :
  0 ≤ startMinutes e < 1440 ∧
  startMinutes e = (TimeEntry.startTime e - startOfDay (TimeEntry.startTime e)) `div` 60000.
Proof.
  unfold startMinutes, getHours, getMinutes, startOfDay, msPerDay.
  Z.div_mod_to_equations. lia.
Qed.

(** X20. A block of the schedule starts inside its row (0 <= left < 100);
    its width is that of the entry's whole minutes, and that of five minutes
    when the entry is shorter than five minutes or ends before it starts, so
    it is never narrower than five minutes. *)
Theorem timeline_block (now : Z) (e : TimeEntry.t) :
  let minutes := differenceInMinutes (orNum (TimeEntry.endTime e) now)
                   (TimeEntry.startTime e) in
  (0 <= left e)%Q ∧ (left e < 100)%Q ∧
  (inject_Z 5 / 1440 * 100 <= width now e)%Q ∧
  (minutes < 5 → (width now e == inject_Z 5 / 1440 * 100)%Q) ∧
  (5 ≤ minutes → (width now e == inject_Z minutes / 1440 * 100)%Q).
Proof.
  intros minutes. destruct (startMinutes_bound e) as [Hb Heq].
  split_and!.
  - apply percent_nonneg. lia.
  - apply percent_lt. lia.
  - unfold width, duration. fold minutes.
    destruct (Z.ltb_spec minutes 5).
    + apply Qle_refl.
    + unfold Qle. simpl. lia.
  - intros Hlt. unfold width, duration. fold minutes.
    destruct (Z.ltb_spec minutes 5); [reflexivity | lia].
  - intros Hge. unfold width, duration. fold minutes.
    destruct (Z.ltb_spec minutes 5); [lia | reflexivity].
Qed.

Lemma timeline_block_witness :
  (width Demo.elevenOClock Demo.tenToHalfPast == inject_Z 30 / 1440 * 100)%Q ∧
  (width Demo.elevenOClock Demo.backwardsEntry == inject_Z 5 / 1440 * 100)%Q.
Proof.
  split.
  - destruct (timeline_block Demo.elevenOClock Demo.tenToHalfPast) as (_ & _ & _ & _ & H).
    rewrite H; [reflexivity | by vm_compute].
  - destruct (timeline_block Demo.elevenOClock Demo.backwardsEntry) as (_ & _ & _ & H & _).
    apply H. by vm_compute.
Defined.

End TimelineProps.

(** * Properties of the CSV import *)

Module ImportProps.
Import Settings.

Section RowFacts.
Variable getTime : string → Z.
Variable uuids : nat → string.

Lemma findByName_elem (projects : list Project.t) (name : string) (p : Project.t) :
  findByName projects name = Some p → p ∈ projects ∧ Project.name p = name.
Proof.
  unfold findByName. intros ([i q] & Hfind & ->)%fmap_Some.
  apply list_find_Some in Hfind as (Hi & Hq & _). split; [|done].
  by eapply list_elem_of_lookup_2.
Qed.

Lemma importRow_skip snapshot st row :
  ¬ hasStart row → importRow getTime uuids snapshot st row = st.
Proof.
  unfold hasStart, importRow. intros Hno.
  destruct (truthyStr (r_startTime row)); [|done]. destruct Hno. eauto.
Qed.

Lemma importRow_add snapshot st row :
  hasStart row →
  let st' := importRow getTime uuids snapshot st row in
  (∃ e, Store.entries (st_store st') = Store.entries (st_store st) ++ [e] ∧ bare snapshot e) ∧
  Project.name <$> Store.projects (st_store st')
  = (Project.name <$> Store.projects (st_store st)) ++ option_list (unknownName snapshot row) ∧
  Store.tags (st_store st') = Store.tags (st_store st) ∧
  st_added st' = S (st_added st).
Proof.
  unfold hasStart, importRow, unknownName. intros [startText Hstart]. rewrite Hstart.
  destruct (truthyStr (r_projectName row)) as [name|].
  - destruct (findByName snapshot name) as [p|] eqn:Hfind; cbn.
    + apply findByName_elem in Hfind as [Hp _]. split; [|split; [|split]].
      * eexists. split; [reflexivity|]. unfold bare. cbn. eauto 7.
      * by rewrite app_nil_r.
      * done.
      * done.
    + split; [|split; [|split]].
      * eexists. split; [reflexivity|]. unfold bare. cbn. eauto.
      * by rewrite fmap_app.
      * done.
      * done.
  - cbn. split; [|split; [|split]].
    + eexists. split; [reflexivity|]. unfold bare. cbn. eauto.
    + by rewrite app_nil_r.
    + done.
    + done.
Qed.

Lemma import_fold snapshot (rows : list Row) (st : ImportState) :
  let st' := foldl (importRow getTime uuids snapshot) st rows in
  (∃ imported,
     Store.entries (st_store st') = Store.entries (st_store st) ++ imported ∧
     length imported = length (filter hasStart rows) ∧
     Forall (bare snapshot) imported) ∧
  Project.name <$> Store.projects (st_store st')
  = (Project.name <$> Store.projects (st_store st)) ++ omap (unknownName snapshot) rows ∧
  Store.tags (st_store st') = Store.tags (st_store st) ∧
  st_added st' = (st_added st + length (filter hasStart rows))%nat.
Proof.
  revert st. induction rows as [|row rows IH]; intros st; cbn [foldl].
  - split; [|split; [|split]].
    + exists []. by rewrite app_nil_r.
    + by rewrite app_nil_r.
    + done.
    + cbn. lia.
  - destruct (IH (importRow getTime uuids snapshot st row))
      as ((imported & Hent & Hlen & Hbare) & Hproj & Htags & Hadded). clear IH.
    destruct (decide (hasStart row)) as [Hrow|Hrow].
    + destruct (importRow_add snapshot st row Hrow)
        as ((e & He & Hbe) & Hp1 & Ht1 & Ha1).
      rewrite filter_cons_True by done. split; [|split; [|split]].
      * exists (e :: imported). rewrite Hent, He, <- app_assoc. split; [done|]. split.
        -- cbn. by rewrite Hlen.
        -- by constructor.
      * rewrite Hproj, Hp1, <- app_assoc. f_equal. cbn [omap list_omap].
        by destruct (unknownName snapshot row).
      * by rewrite Htags, Ht1.
      * rewrite Hadded, Ha1. cbn. lia.
    + rewrite importRow_skip in Hent, Hproj, Htags, Hadded |- * by done.
      rewrite filter_cons_False by done. split; [|split; [|split]].
      * exists imported. auto.
      * rewrite Hproj. f_equal. cbn [omap list_omap].
        assert (unknownName snapshot row = None) as ->; [|done].
        unfold unknownName, hasStart in *.
        destruct (truthyStr (r_startTime row)); [|done]. destruct Hrow. eauto.
      * done.
      * done.
Qed.

End RowFacts.

(** X21. The CSV import appends: the entries that were there stay, one
    entry is added for each row that has a start, that number is the count
    the handler reports, and the tags are untouched. Every imported entry
    comes without tags, target and working-break flag, and its project is
    either none or a project of the snapshot the handler reads. *)
Theorem handleImport_appends (getTime : string → Z) (uuids : nat → string)
    (rows : list Row) (snapshot : list Project.t) (s : Store.TimeStore) :
  let st := handleImport getTime uuids rows snapshot s in
  ∃ imported,
    Store.entries (st_store st) = Store.entries s ++ imported ∧
    length imported = length (filter hasStart rows) ∧
    st_added st = length imported ∧
    Store.tags (st_store st) = Store.tags s ∧
    Forall (λ e, TimeEntry.tagIds e = [] ∧ TimeEntry.targetDuration e = None ∧
                 TimeEntry.isWorkingBreak e = None ∧
                 (TimeEntry.projectId e = None ∨
                  ∃ p, p ∈ snapshot ∧ TimeEntry.projectId e = Some (Project.id p)))
           imported.
Proof.
  intros st.
  destruct (import_fold getTime uuids snapshot rows (mkImportState s 0 0))
    as ((imported & Hent & Hlen & Hbare) & _ & Htags & Hadded).
  cbn [st_store st_added] in Hent, Htags, Hadded.
  exists imported. split; [done|]. split; [done|]. split; [|split; [done|exact Hbare]].
  subst st. unfold handleImport. rewrite Hadded, Hlen. done.
Qed.

Lemma name_count (name : string) (l : list Project.t) :
  length (filter (λ p, Project.name p = name) l)
  = length (filter (λ x, x = name) (Project.name <$> l)).
Proof.
  induction l as [|p l IH]; [done|]. rewrite fmap_cons.
  destruct (decide (Project.name p = name)).
  - rewrite !filter_cons_True by done. cbn. by rewrite IH.
  - by rewrite !filter_cons_False by done.
Qed.

Lemma findByName_none (projects : list Project.t) (name : string) :
  findByName projects name = None → filter (λ p, Project.name p = name) projects = [].
Proof.
  unfold findByName. intros Hnone. apply fmap_None in Hnone.
  apply list_find_None in Hnone.
  induction Hnone as [|p l Hp _ IH]; [done|]. by rewrite filter_cons_False.
Qed.

Lemma unknown_names_same (snapshot : list Project.t) (name : string) (rows : list Row) :
  name ≠ "" → findByName snapshot name = None →
  Forall (λ row, hasStart row ∧ r_projectName row = Some name) rows →
  omap (unknownName snapshot) rows = replicate (length rows) name.
Proof.
  intros Hname Hnone. induction 1 as [|row rows [Hstart Hrow] _ IH]; [done|].
  cbn [omap list_omap length replicate]. rewrite IH.
  unfold unknownName, hasStart in *. destruct Hstart as [t ->]. rewrite Hrow.
  cbn [truthyStr]. rewrite decide_False by done. by rewrite Hnone.
Qed.

(** X22. The import looks project names up in the snapshot only, so it
    adds one project for every imported row whose name the snapshot does
    not have: the names of the projects afterwards are the old names
    followed by those names in row order, and rows that all carry the same
    new name add as many projects of that name as there are rows. *)
Theorem handleImport_new_projects (getTime : string → Z) (uuids : nat → string)
    (rows : list Row) (snapshot : list Project.t) (s : Store.TimeStore) :
  let st := handleImport getTime uuids rows snapshot s in
  Project.name <$> Store.projects (st_store st)
  = (Project.name <$> Store.projects s) ++ omap (unknownName snapshot) rows ∧
  ∀ name,
    name ≠ "" → findByName snapshot name = None →
    Store.projects s = snapshot →
    Forall (λ row, hasStart row ∧ r_projectName row = Some name) rows →
    length (filter (λ p, Project.name p = name) (Store.projects (st_store st)))
    = length rows.
Proof.
  intros st.
  destruct (import_fold getTime uuids snapshot rows (mkImportState s 0 0))
    as (_ & Hproj & _ & _).
  cbn [st_store] in Hproj.
  split; [done|]. intros name Hname Hnone Hsnap Hrows.
  rewrite name_count. subst st. unfold handleImport. rewrite Hproj, filter_app, length_app.
  rewrite <- name_count, Hsnap, (findByName_none _ _ Hnone).
  rewrite (unknown_names_same snapshot name rows) by done. cbn.
  assert (Hrep : ∀ n, filter (λ x : string, x = name) (replicate n name) = replicate n name).
  { induction n as [|n IH]; [done|]. cbn [replicate]. by rewrite filter_cons_True, IH. }
  by rewrite Hrep, length_replicate.
Qed.

Lemma handleImport_new_projects_witness :
  let st := handleImport (λ _, 0) (λ n, pretty n) (take 2 Demo.csvRows) [Demo.alpha]
              (Store.mkStore [] [Demo.alpha] []) in
  length (filter (λ p, Project.name p = "Beta") (Store.projects (st_store st))) = 2%nat.
Proof.
  intros st.
  destruct (handleImport_new_projects (λ _, 0) (λ n, pretty n) (take 2 Demo.csvRows)
              [Demo.alpha] (Store.mkStore [] [Demo.alpha] [])) as [_ H].
  apply (H "Beta"); [discriminate | reflexivity | reflexivity |].
  repeat constructor; eexists; reflexivity.
Defined.

End ImportProps.

(** * The clock and closed entries *)

Module ClockProps.
Import DateFns Reports.

Lemma orNum_ended (e : TimeEntry.t) (now now' : Z) :
  ended e → orNum (TimeEntry.endTime e) now = orNum (TimeEntry.endTime e) now'.
Proof.
  unfold truthyNum, orNum. destruct (TimeEntry.endTime e) as [t|]; [|done].
  by destruct (t =? 0).
Qed.

Lemma filter_ext_on {A} (P Q : A → Prop) `{!∀ x, Decision (P x)} `{!∀ x, Decision (Q x)}
    (l : list A) :
  Forall (λ x, P x ↔ Q x) l → filter P l = filter Q l.
Proof.
  induction 1 as [|x l Hx _ IH]; [done|].
  destruct (decide (P x)) as [HP|HP].
  - rewrite !filter_cons_True by tauto. by rewrite IH.
  - rewrite !filter_cons_False by tauto. done.
Qed.

Lemma foldl_ext_on {A B} (f g : B → A → B) (b : B) (l : list A) :
  Forall (λ x, ∀ acc, f acc x = g acc x) l → foldl f b l = foldl g b l.
Proof.
  intros Hall. revert b. induction Hall as [|x l Hx _ IH]; intros b; [done|].
  cbn [foldl]. by rewrite Hx, IH.
Qed.

Lemma Forall_filter_keep {A} (P Q : A → Prop) `{!∀ x, Decision (Q x)} (l : list A) :
  Forall P l → Forall P (filter Q l).
Proof.
  rewrite !Forall_forall. intros Hall x [_ Hx]%list_elem_of_filter. auto.
Qed.

Lemma filteredEntries_clock (entries : list TimeEntry.t) (range : Interval) (now now' : Z) :
  Forall ended entries →
  filteredEntries entries range now = filteredEntries entries range now'.
Proof.
  intros Hall. unfold filteredEntries. apply filter_ext_on.
  eapply Forall_impl; [exact Hall|]. intros e He. cbn beta.
  unfold inRange. rewrite He, (orNum_ended e now now') by done. done.
Qed.

Lemma workSeconds_clock (l : list TimeEntry.t) (now now' day : Z) :
  Forall ended l → workSeconds l now day = workSeconds l now' day.
Proof.
  intros Hall. unfold workSeconds, dayEntries.
  assert (filter (λ e, (TimeEntry.startTime e <? endOfDay day)
                       && (startOfDay day <? orNum (TimeEntry.endTime e) now)) l
          = filter (λ e, (TimeEntry.startTime e <? endOfDay day)
                         && (startOfDay day <? orNum (TimeEntry.endTime e) now')) l) as ->.
  { apply filter_ext_on. eapply Forall_impl; [exact Hall|]. intros e He. cbn beta.
    by rewrite (orNum_ended e now now'). }
  apply foldl_ext_on. apply Forall_filter_keep, Forall_filter_keep.
  eapply Forall_impl; [exact Hall|]. intros e He acc.
  unfold overlapSeconds. by rewrite (orNum_ended e now now').
Qed.

Lemma pieAccumulate_clock (l : list TimeEntry.t) (range : Interval) (now now' : Z) :
  Forall ended l → pieAccumulate l range now = pieAccumulate l range now'.
Proof.
  intros Hall. unfold pieAccumulate. apply foldl_ext_on, Forall_filter_keep.
  eapply Forall_impl; [exact Hall|]. intros e He acc.
  unfold pieStep, overlapSeconds. by rewrite (orNum_ended e now now').
Qed.

(** X23. When no entry is running (and none has the number 0 as its end)
    the report does not depend on the clock: for a given range, bars and
    project rows are the same whenever they are computed. *)
Theorem report_clock_free (s : Store.TimeStore) (range : Interval) (now now' : Z) :
  Forall (λ e, ∃ t, TimeEntry.endTime e = Some t ∧ t ≠ 0) (Store.entries s) →
  report s range now = report s range now'.
Proof.
  intros Hclosed.
  assert (Hall : Forall ended (Store.entries s)).
  { eapply Forall_impl; [exact Hclosed|]. intros e (t & Ht & Hnz). cbn beta.
    rewrite Ht. cbn. by destruct (Z.eqb_spec t 0). }
  unfold report. rewrite (filteredEntries_clock _ _ now now') by done.
  assert (Hf : Forall ended (filteredEntries (Store.entries s) range now'))
    by (by apply Forall_filter_keep).
  f_equal.
  - unfold barData. apply list_fmap_ext. intros _ day _.
    by rewrite (workSeconds_clock _ now now').
  - unfold pieData. by rewrite (pieAccumulate_clock _ _ now now').
Qed.

Lemma report_clock_free_witness :
  report (Store.mkStore Demo.threeEntries [Demo.alpha] []) Demo.twoDays Demo.elevenOClock
  = report (Store.mkStore Demo.threeEntries [Demo.alpha] []) Demo.twoDays Demo.afterDay2.
Proof.
  apply report_clock_free.
  repeat constructor; eexists; (split; [reflexivity | discriminate]).
Defined.

End ClockProps.

(** * The project chart in binary64 *)

Module PieChartProps.
Import DateFns Binary64 PieChart.

Lemma get_set_same (k : string) (v : float) (m : NumMap) :
  mapGet k (mapSet k v m) = Some v.
Proof.
  induction m as [|[k' v'] m IH]; simpl.
  - by rewrite decide_True.
  - destruct (decide (k = k')) as [->|Hne]; simpl.
    + by rewrite decide_True.
    + by rewrite decide_False.
Qed.

Lemma get_set_other (k k' : string) (v : float) (m : NumMap) :
  k ≠ k' → mapGet k' (mapSet k v m) = mapGet k' m.
Proof.
  intros Hne. induction m as [|[k0 v0] m IH]; simpl.
  - by rewrite decide_False.
  - destruct (decide (k = k0)) as [->|Hne0]; simpl.
    + by rewrite !decide_False by done.
    + destruct (decide (k' = k0)); [done | apply IH].
Qed.

Lemma step_keyed range now acc e pid :
  truthyStr (TimeEntry.projectId e) = Some pid →
  pieStep range now acc e
  = (mapSet pid (or0 (mapGet pid (fst acc))
                 + overlapSeconds now (start range) (end_ range) e)%float (fst acc),
     snd acc).
Proof. intros H. unfold pieStep. by rewrite H. Qed.

Lemma step_unkeyed range now acc e :
  truthyStr (TimeEntry.projectId e) = None →
  pieStep range now acc e
  = (fst acc, (snd acc + overlapSeconds now (start range) (end_ range) e)%float).
Proof. intros H. unfold pieStep. by rewrite H. Qed.

(** The total under a key is built from that key's entries alone. *)
Lemma fold_key_total range now pid (l : list TimeEntry.t) (acc : NumMap * float) :
  mapGet pid (fst (foldl (pieStep range now) acc l))
  = runningTotal (mapGet pid (fst acc))
      (overlapSeconds now (start range) (end_ range) <$> filter (Reports.keyedTo pid) l).
Proof.
  revert acc. induction l as [|e l IH]; intros acc; [done|].
  cbn [foldl]. rewrite IH. clear IH.
  destruct (truthyStr (TimeEntry.projectId e)) as [k|] eqn:Hk.
  - rewrite (step_keyed _ _ _ _ k) by done. cbn [fst].
    destruct (decide (k = pid)) as [->|Hne].
    + by rewrite get_set_same, filter_cons_True by done.
    + by rewrite get_set_other, filter_cons_False by congruence.
  - rewrite step_unkeyed by done. cbn [fst].
    by rewrite filter_cons_False by congruence.
Qed.

Lemma fold_rest_total range now (l : list TimeEntry.t) (acc : NumMap * float) :
  snd (foldl (pieStep range now) acc l)
  = runningSum (snd acc)
      (overlapSeconds now (start range) (end_ range) <$> filter Reports.unkeyed l).
Proof.
  revert acc. induction l as [|e l IH]; intros acc; [done|].
  cbn [foldl]. rewrite IH. clear IH.
  destruct (truthyStr (TimeEntry.projectId e)) as [k|] eqn:Hk.
  - rewrite (step_keyed _ _ _ _ k) by done. cbn [snd].
    by rewrite filter_cons_False by congruence.
  - rewrite step_unkeyed by done. cbn [snd].
    by rewrite filter_cons_True by done.
Qed.

Lemma rows_of_accumulate filtered range projects now :
  pieData filtered range projects now
  = (projectRow projects <$> fst (pieAccumulate filtered range now))
    ++ (if (60 <? snd (pieAccumulate filtered range now))%float
        then [noProjectRow (snd (pieAccumulate filtered range now))] else []).
Proof.
  unfold pieData. destruct (pieAccumulate filtered range now) as [pm nps]. cbn [fst snd].
  destruct (60 <? nps)%float; [done | by rewrite app_nil_r].
Qed.

Lemma seconds_inside range pid dur now e :
  0 ≤ dur → Reports.workInside range pid dur e →
  overlapSeconds now (start range) (end_ range) e = max0 (ofZ dur / 1000)%float.
Proof.
  intros Hdur (_ & _ & Hpos & Hlo & Hend & Hhi). unfold overlapSeconds.
  rewrite Hend. unfold orNum.
  destruct (Z.eqb_spec (TimeEntry.startTime e + dur) 0); [lia|].
  do 2 f_equal. f_equal. lia.
Qed.

(** Three work entries of 1 h, 2 h and 30 min for one project, inside the
    range: a single row of 3.5 hours under the project's name. *)
Lemma three_entries_hours range projects now pid proj e1 e2 e3 :
  pid ≠ "" →
  Reports.workInside range pid 3600000 e1 →
  Reports.workInside range pid 7200000 e2 →
  Reports.workInside range pid 1800000 e3 →
  Reports.findProject projects pid = Some proj →
  Project.name proj ≠ "" → Project.color proj ≠ "" →
  pieData (Reports.filteredEntries [e1; e2; e3] range now) range projects now
  = [mkPie (Project.name proj) 3.5%float (Project.color proj)].
Proof.
  intros Hpid H1 H2 H3 Hproj Hname Hcolor.
  pose proof (ReportsProps.workInside_inRange range pid 3600000 now e1 ltac:(lia) H1) as R1.
  pose proof (ReportsProps.workInside_inRange range pid 7200000 now e2 ltac:(lia) H2) as R2.
  pose proof (ReportsProps.workInside_inRange range pid 1800000 now e3 ltac:(lia) H3) as R3.
  pose proof (seconds_inside range pid 3600000 now e1 ltac:(lia) H1) as S1.
  pose proof (seconds_inside range pid 7200000 now e2 ltac:(lia) H2) as S2.
  pose proof (seconds_inside range pid 1800000 now e3 ltac:(lia) H3) as S3.
  destruct (ReportsProps.workInside_keyed _ _ _ _ Hpid H1) as [W1 K1].
  destruct (ReportsProps.workInside_keyed _ _ _ _ Hpid H2) as [W2 K2].
  destruct (ReportsProps.workInside_keyed _ _ _ _ Hpid H3) as [W3 K3].
  unfold Reports.filteredEntries. do 3 (filter_head R1 || filter_head R2 || filter_head R3).
  rewrite filter_nil, rows_of_accumulate. unfold pieAccumulate.
  do 3 (filter_head W1 || filter_head W2 || filter_head W3).
  rewrite filter_nil. cbn [foldl].
  rewrite (step_keyed _ _ _ e1 pid) by done. cbn [fst snd mapGet mapSet].
  rewrite (step_keyed _ _ _ e2 pid) by done. cbn [fst snd mapGet mapSet].
  rewrite !decide_True by done.
  rewrite (step_keyed _ _ _ e3 pid) by done. cbn [fst snd mapGet mapSet].
  rewrite !decide_True by done. rewrite S1, S2, S3.
  cbn [fmap list_fmap]. unfold projectRow. cbn [fst snd]. rewrite Hproj.
  unfold Reports.orStr. cbn [fmap option_fmap option_map truthyStr].
  rewrite !decide_False by done. cbn [from_option]. unfold id.
  match goal with
  | |- context [toFixed2 ?x] =>
      replace (toFixed2 x) with 3.5%float by (vm_compute; reflexivity)
  end.
  change (60 <? 0)%float with false. by rewrite app_nil_r.
Qed.

(** C5 (amended). The project map holds, for each project id, the total
    of the clipped seconds of the in-range work entries with that id, added
    up in entry order in binary64 ([(total || 0) + seconds]), and these
    entries are the work entries that pass the range filter (with the clock
    inside the range the filter only drops entries whose clipped duration is
    zero); entries without a project id add up in [noProjectSeconds], and
    the result is one row per key followed by the "No Project" row exactly
    when the accumulated [noProjectSeconds] compares greater than 60. Three
    work entries of 1 h, 2 h and 30 min for a project, inside the range,
    give the single row of 3.5 hours for it. *)
Theorem project_totals (entries : list TimeEntry.t) (projects : list Project.t)
    (range : Interval) (now : Z) :
  let filtered := Reports.filteredEntries entries range now in
  let works := filter (λ e, Reports.isWork e) filtered in
  let projectMap := fst (pieAccumulate filtered range now) in
  let noProjectSeconds := snd (pieAccumulate filtered range now) in
  let seconds := overlapSeconds now (start range) (end_ range) in
  (∀ e, e ∈ works ↔
        e ∈ entries ∧ Reports.inRange range now e = true ∧ TimeEntry.type e = work) ∧
  (∀ e, TimeEntry.endTime e ≠ Some 0 →
        (Reports.inRange range now e = true ↔
         TimeEntry.startTime e ≤ end_ range ∧
         match TimeEntry.endTime e with
         | Some t => start range ≤ t
         | None => start range ≤ now ≤ end_ range
         end)) ∧
  (∀ e, TimeEntry.endTime e ≠ Some 0 → isWithinInterval now range = true →
        Reports.inRange range now e = false →
        Spec.clipped now (start range) (end_ range) e = 0) ∧
  (∀ e, TimeEntry.endTime e ≠ Some 0 →
        seconds e
        = max0 (ofZ (Z.min (Spec.effective_end now e) (end_ range)
                     - Z.max (TimeEntry.startTime e) (start range)) / 1000)%float) ∧
  (∀ pid, mapGet pid projectMap
          = runningTotal None (seconds <$> filter (Reports.keyedTo pid) works)) ∧
  noProjectSeconds = runningSum 0%float (seconds <$> filter Reports.unkeyed works) ∧
  ((60 <? noProjectSeconds)%float = false →
     pieData filtered range projects now = projectRow projects <$> projectMap) ∧
  ((60 <? noProjectSeconds)%float = true →
     pieData filtered range projects now
     = (projectRow projects <$> projectMap) ++ [noProjectRow noProjectSeconds]) ∧
  (∀ pid proj e1 e2 e3,
     entries = [e1; e2; e3] → pid ≠ "" →
     Reports.workInside range pid 3600000 e1 →
     Reports.workInside range pid 7200000 e2 →
     Reports.workInside range pid 1800000 e3 →
     Reports.findProject projects pid = Some proj →
     Project.name proj ≠ "" → Project.color proj ≠ "" →
     pieData filtered range projects now
     = [mkPie (Project.name proj) 3.5%float (Project.color proj)]).
Proof.
  intros filtered works projectMap noProjectSeconds seconds. split_and!.
  - intros e. apply ReportsProps.works_elem.
  - intros e Hnz. by apply ReportsProps.inRange_spec.
  - intros e Hnz Hnow Hdrop. by apply ReportsProps.dropped_clipped_zero.
  - intros e Hnz. subst seconds. unfold overlapSeconds.
    by rewrite ReportsProps.orNum_effective_end.
  - intros pid. subst projectMap. unfold pieAccumulate. by rewrite fold_key_total.
  - subst noProjectSeconds. unfold pieAccumulate. by rewrite fold_rest_total.
  - intros Hle. rewrite rows_of_accumulate. fold noProjectSeconds projectMap.
    rewrite Hle. by rewrite app_nil_r.
  - intros Hlt. rewrite rows_of_accumulate. fold noProjectSeconds projectMap.
    by rewrite Hlt.
  - intros pid proj e1 e2 e3 Hentries. subst filtered. rewrite Hentries.
    apply three_entries_hours.
Qed.

Lemma project_totals_witness :
  pieData (Reports.filteredEntries Demo.threeEntries Demo.twoDays Demo.elevenOClock)
    Demo.twoDays [Demo.alpha] Demo.elevenOClock
  = [mkPie "Alpha" 3.5%float "#f00"].
Proof.
  destruct (project_totals Demo.threeEntries [Demo.alpha] Demo.twoDays Demo.elevenOClock)
    as (_ & _ & _ & _ & _ & _ & _ & _ & H).
  apply (H "p1" Demo.alpha _ _ _ eq_refl); try done; repeat split; done.
Defined.

(** C5 as stated fails twice. A work entry of project p1 that is still
    running when the clock has left the report range is dropped by the range
    filter: p1 gets no total and no row, where its clipped duration is
    86 399.999 s. And three work entries without project of 0.1 s, 52.2 s and
    7.7 s, 60 s in all, add up to 60.000000000000007 in binary64: the
    "No Project" row is shown although the total does not exceed 60
    seconds. *)
Lemma project_totals_counterexample :
  (pieData (Reports.filteredEntries [Demo.runningForP1] Demo.day2Range Demo.afterDay2)
     Demo.day2Range [Demo.alpha] Demo.afterDay2 = [] ∧
   Spec.clipped Demo.afterDay2 (start Demo.day2Range) (end_ Demo.day2Range)
     Demo.runningForP1 = 86399999) ∧
  (sumZ (Spec.clipped Demo.elevenOClock (start Demo.twoDays) (end_ Demo.twoDays)
           <$> Demo.sixtySeconds) = 60 * 1000 ∧
   snd (pieAccumulate
          (Reports.filteredEntries Demo.sixtySeconds Demo.twoDays Demo.elevenOClock)
          Demo.twoDays Demo.elevenOClock)
   = (ofZ 100 / 1000 + ofZ 52200 / 1000 + ofZ 7700 / 1000)%float ∧
   (60 <? ofZ 100 / 1000 + ofZ 52200 / 1000 + ofZ 7700 / 1000)%float = true ∧
   pieData (Reports.filteredEntries Demo.sixtySeconds Demo.twoDays Demo.elevenOClock)
     Demo.twoDays [Demo.alpha] Demo.elevenOClock
   = [mkPie "No Project" (nearest 2 100) "#ccc"]).
Proof. split_and!; by vm_compute. Qed.

End PieChartProps.
